(* Shallow embedding of the mindfulme-api authentication, check-in and
   error-reporting code (src/errors.rs, src/utils/token.rs,
   src/models/user.rs, src/models/checkin.rs, src/routes/auth.rs,
   src/routes/checkin.rs). *)

From Stdlib Require Import ZArith NArith String List Bool Lia Permutation.
Import ListNotations.
Open Scope string_scope.

(* ------------------------------------------------------------------ *)
(** * Primitive types *)

(** [bson::oid::ObjectId]: an opaque identifier, compared by value. *)
Definition ObjectId := N.

(** [utils::date::Date] (a BSON datetime): milliseconds since the epoch. *)
Definition Date := Z.

(** Decimal rendering of an unsigned integer ([u16::to_string]). *)
Fixpoint digits_fuel (fuel : nat) (n : N) (acc : string) : string :=
  match fuel with
  | O => acc
  | S f =>
      let d := N.modulo n 10 in
      let c := Ascii.ascii_of_N (48 + d) in
      let q := N.div n 10 in
      if (q =? 0)%N then String c acc else digits_fuel f q (String c acc)
  end.

Definition to_string_N (n : N) : string := digits_fuel 20 n EmptyString.

(* ------------------------------------------------------------------ *)
(** * src/errors.rs *)

Module Errors.

Local Open Scope N_scope.

(** [AuthenticateError] *)
Inductive AuthenticateError :=
| WrongCredentials
| TokenCreation
| InvalidToken
| Locked.

(** [#[error(...)]] display strings of [AuthenticateError]. *)
Definition auth_error_to_string (e : AuthenticateError) : string :=
  match e with
  | WrongCredentials => "Wrong authentication credentials"
  | TokenCreation => "Failed to create authentication token"
  | InvalidToken => "Invalid authentication credentials"
  | Locked => "User is locked"
  end.

(** [Error]. Errors of external crates ([WitherError], [MongoError],
    [bson::de::Error], [JoinError], [BcryptError]) are carried as their
    display text. *)
Inductive Error :=
| Wither (e : string)
| Mongo (e : string)
| ParseObjectID (s : string)
| SerializeMongoResponse (e : string)
| Authenticate (e : AuthenticateError)
| BadRequest (message : string)
| NotFound
| RunSyncTask (e : string)
| HashPassword (e : string)
| TokenCreationErr (s : string)
| InvalidPassword (s : string).

(** [impl Display for Error] (thiserror attributes). *)
Definition to_string (e : Error) : string :=
  match e with
  | Wither s | Mongo s | SerializeMongoResponse s
  | RunSyncTask s | HashPassword s | TokenCreationErr s => s
  | ParseObjectID s => "Error parsing ObjectID " ++ s
  | Authenticate a => auth_error_to_string a
  | BadRequest m => m
  | NotFound => "Not found"
  | InvalidPassword s => "Error invalid password " ++ s
  end.

(** HTTP status codes used by [get_codes]. *)
Definition BAD_REQUEST : N := 400.
Definition UNAUTHORIZED : N := 401.
Definition NOT_FOUND : N := 404.
Definition LOCKED : N := 423.
Definition INTERNAL_SERVER_ERROR : N := 500.

(** [Error::get_codes] *)
Definition get_codes (e : Error) : N * N :=
  match e with
  | ParseObjectID _ => (BAD_REQUEST, 40001)
  | BadRequest _ => (BAD_REQUEST, 40002)
  | NotFound => (NOT_FOUND, 40003)
  | Authenticate WrongCredentials => (UNAUTHORIZED, 40004)
  | Authenticate InvalidToken => (UNAUTHORIZED, 40005)
  | Authenticate Locked => (LOCKED, 40006)
  | TokenCreationErr _ => (INTERNAL_SERVER_ERROR, 40007)
  | Authenticate TokenCreation => (INTERNAL_SERVER_ERROR, 5001)
  | Wither _ => (INTERNAL_SERVER_ERROR, 5002)
  | Mongo _ => (INTERNAL_SERVER_ERROR, 5003)
  | SerializeMongoResponse _ => (INTERNAL_SERVER_ERROR, 5004)
  | RunSyncTask _ => (INTERNAL_SERVER_ERROR, 5005)
  | HashPassword _ => (INTERNAL_SERVER_ERROR, 5006)
  | InvalidPassword _ => (UNAUTHORIZED, 40008)
  end.

(** [Error::bad_request] *)
Definition bad_request : Error := BadRequest "Bad Request".

(** [Error::bad_request_with_message] *)
Definition bad_request_with_message (message : string) : Error :=
  BadRequest message.

(** [Error::not_found] *)
Definition not_found : Error := NotFound.

(** [Error::unauthorized_with_message]: the message argument is unused. *)
Definition unauthorized_with_message (message : string) : Error :=
  Authenticate WrongCredentials.

(** The JSON body [{"success": .., "message": .., "error": ..}]. *)
Record ErrorBody := {
  body_success : bool;
  body_message : string;
  body_error : string
}.

(** An HTTP response: status code and body. *)
Record Response := {
  resp_status : N;
  resp_body : ErrorBody
}.

(** [impl IntoResponse for Error] *)
Definition into_response (self : Error) : Response :=
  let '(status_code, code) := get_codes self in
  let message := to_string self in
  {| resp_status := status_code;
     resp_body := {| body_success := false;
                     body_message := message;
                     body_error := to_string_N code |} |}.

(** The failure kind of an error: its variant, refined by the
    [AuthenticateError] variant for [Error::Authenticate]. *)
Inductive Kind :=
| KParseObjectID | KBadRequest | KNotFound | KAuth (a : AuthenticateError)
| KTokenCreation | KWither | KMongo | KSerialize | KRunSyncTask
| KHashPassword | KInvalidPassword.

Definition kind (e : Error) : Kind :=
  match e with
  | Wither _ => KWither
  | Mongo _ => KMongo
  | ParseObjectID _ => KParseObjectID
  | SerializeMongoResponse _ => KSerialize
  | Authenticate a => KAuth a
  | BadRequest _ => KBadRequest
  | NotFound => KNotFound
  | RunSyncTask _ => KRunSyncTask
  | HashPassword _ => KHashPassword
  | TokenCreationErr _ => KTokenCreation
  | InvalidPassword _ => KInvalidPassword
  end.

End Errors.

(* ------------------------------------------------------------------ *)
(** * Handler outcomes *)

(** The outcome of a Rust computation returning [Result<A, Error>]: a
    value, an error, or a panic (an [unwrap] on [None]). *)
Inductive Outcome (A : Type) :=
| Ok (a : A)
| Err (e : Errors.Error)
| Panic.
Arguments Ok {A} a.
Arguments Err {A} e.
Arguments Panic {A}.

(** The [?] operator. *)
Definition bind {A B} (m : Outcome A) (k : A -> Outcome B) : Outcome B :=
  match m with
  | Ok a => k a
  | Err e => Err e
  | Panic => Panic
  end.

Notation "x <- m ;; k" := (bind m (fun x => k))
  (at level 61, m at next level, right associativity).

(** [Option::unwrap] *)
Definition unwrap {A} (o : option A) : Outcome A :=
  match o with Some a => Ok a | None => Panic end.

(* ------------------------------------------------------------------ *)
(** * src/models/user.rs: the [User] model *)

Module UserModel.

Record User := {
  id : option ObjectId;
  first_name : string;
  last_name : string;
  email : string;
  password : string;
  updated_at : Date;
  created_at : Date;
  locked_at : option Date
}.

(** [User::new]: [now] is the reading of [date::now()]. *)
Definition new (first_name last_name email password_hash : string)
  (now : Date) : User :=
  {| id := None;
     first_name := first_name;
     last_name := last_name;
     email := email;
     password := password_hash;
     updated_at := now;
     created_at := now;
     locked_at := None |}.

Record PublicUser := {
  pu_id : ObjectId;
  pu_first_name : string;
  pu_last_name : string;
  pu_email : string;
  pu_updated_at : Date;
  pu_created_at : Date
}.

(** [impl From<User> for PublicUser] *)
Definition PublicUser_from (user : User) : Outcome PublicUser :=
  i <- unwrap (id user) ;;
  Ok {| pu_id := i;
        pu_first_name := first_name user;
        pu_last_name := last_name user;
        pu_email := email user;
        pu_updated_at := updated_at user;
        pu_created_at := created_at user |}.

End UserModel.

(* ------------------------------------------------------------------ *)
(** * src/utils/token.rs *)

Module Token.
Import UserModel.
Local Open Scope Z_scope.

(** Instants read from [chrono::Local::now()] / [SystemTime::now()]:
    nanoseconds since the Unix epoch. *)
Definition Instant := Z.

Definition NANOS : Z := 1000000000.

(** [DateTime::timestamp]: whole seconds (floor). *)
Definition timestamp (t : Instant) : Z := Z.div t NANOS.

(** [chrono::Duration::days(1)] in nanoseconds. *)
Definition one_day : Z := 86400 * NANOS.

(** [i64 as usize] on a 64-bit target. *)
Definition as_usize (x : Z) : Z := Z.modulo x (2 ^ 64).

Record TokenUser := {
  tu_id : ObjectId;
  tu_first_name : string;
  tu_last_name : string;
  tu_email : string
}.

(** [impl From<User> for TokenUser] *)
Definition TokenUser_from (user : User) : Outcome TokenUser :=
  i <- unwrap (id user) ;;
  Ok {| tu_id := i;
        tu_first_name := first_name user;
        tu_last_name := last_name user;
        tu_email := email user |}.

Record Claims := {
  exp : Z;
  iat : Z;
  cl_user : TokenUser
}.

(** [Claims::new]: the fields are evaluated in order, so [now1] is the
    first reading of [chrono::Local::now()] (for [exp]) and [now2] the
    second one (for [iat]), with [now1 <= now2]. *)
Definition Claims_new (user : User) (now1 now2 : Instant) : Outcome Claims :=
  let exp := as_usize (timestamp (now1 + one_day)) in
  let iat := as_usize (timestamp now2) in
  u <- TokenUser_from user ;;
  Ok {| exp := exp; iat := iat; cl_user := u |}.

(** JWT signing algorithms ([Header::default] is HS256). *)
Inductive Algorithm := HS256 | HS384 | HS512.

Definition alg_eqb (a b : Algorithm) : bool :=
  match a, b with
  | HS256, HS256 | HS384, HS384 | HS512, HS512 => true
  | _, _ => false
  end.

(** A JWT after base64/JSON decoding: header algorithm, claims and
    signature. *)
Record Jwt := {
  jwt_alg : Algorithm;
  jwt_claims : Claims;
  jwt_sig : Z
}.

(** [jsonwebtoken::errors::ErrorKind] (the cases reachable here). *)
Inductive JwtError := InvalidSignature | ExpiredSignature | InvalidAlgorithm.

(** [Validation::default()] of the jsonwebtoken crate: algorithms
    [[HS256]], [leeway = 60], [validate_exp = true]. *)
Record Validation := {
  algorithms : list Algorithm;
  leeway : Z;
  validate_exp : bool
}.

Definition VALIDATION : Validation :=
  {| algorithms := [HS256]; leeway := 60; validate_exp := true |}.

(** [u64] subtraction (wrapping). *)
Definition sub_u64 (a b : Z) : Z := Z.modulo (a - b) (2 ^ 64).

Section Signing.

(** The HMAC of the encoded header and claims under a secret. *)
Variable hmac : Algorithm -> string -> Claims -> Z.

(** [jsonwebtoken::encode] with [Header::default] ([create]'s call). *)
Definition encode (alg : Algorithm) (claims : Claims) (secret : string) : Jwt :=
  {| jwt_alg := alg; jwt_claims := claims; jwt_sig := hmac alg secret claims |}.

(** jsonwebtoken's [validate]: the [exp] check against the current
    time [now] (whole seconds of [SystemTime::now()]). *)
Definition validate (claims : Claims) (now : Z) (options : Validation)
  : option JwtError :=
  if validate_exp options && (exp claims <? sub_u64 now (leeway options))
  then Some ExpiredSignature else None.

(** [jsonwebtoken::decode::<Claims>]: algorithm check, signature check,
    then claim validation, at instant [t]. *)
Definition jwt_decode (token : Jwt) (secret : string) (options : Validation)
  (t : Instant) : sum Claims JwtError :=
  if negb (existsb (alg_eqb (jwt_alg token)) (algorithms options))
  then inr InvalidAlgorithm
  else if negb (jwt_sig token =? hmac (jwt_alg token) secret (jwt_claims token))
  then inr InvalidSignature
  else match validate (jwt_claims token) (timestamp t) options with
       | Some e => inr e
       | None => inl (jwt_claims token)
       end.

(** [token::create]: [now1], [now2] are the clock readings of
    [Claims::new]. Encoding with an HMAC key does not fail. *)
Definition create (user : User) (secret : string) (now1 now2 : Instant)
  : Outcome Jwt :=
  claims <- Claims_new user now1 now2 ;;
  Ok (encode HS256 claims secret).

(** [token::decode] at instant [t]. *)
Definition decode (token : Jwt) (secret : string) (t : Instant)
  : sum Claims JwtError :=
  jwt_decode token secret VALIDATION t.

End Signing.

End Token.

(* ------------------------------------------------------------------ *)
(** * src/models/checkin.rs *)

Module CheckinModel.
Local Open Scope N_scope.

Definition EMOTION_JOY := "joy".
Definition EMOTION_SADNESS := "sadness".
Definition EMOTION_ANGER := "anger".
Definition EMOTION_FEAR := "fear".
Definition EMOTION_DISGUST := "disgust".
Definition EMOTION_SURPRISE := "surprise".

(** [valid_emotions] *)
Definition valid_emotions : list string :=
  [EMOTION_JOY; EMOTION_SADNESS; EMOTION_ANGER; EMOTION_FEAR;
   EMOTION_DISGUST; EMOTION_SURPRISE].

(** [Vec::contains] on the emotion list. *)
Definition contains (l : list string) (s : string) : bool :=
  existsb (String.eqb s) l.

(** A [u8] field. *)
Definition u8 := N.

Record Checkin := {
  c_id : option ObjectId;
  c_user : ObjectId;
  mood_rating : u8;
  primary_emotion : string;
  intensity : u8;
  energy_level : u8;
  stress_level : u8;
  wellbeing : u8;
  notes : option string;
  c_updated_at : Date;
  c_created_at : Date
}.

(** [Checkin::new]: [now] is the reading of [date::now()]. *)
Definition new (user : ObjectId) (mood_rating : u8) (primary_emotion : string)
  (intensity energy_level stress_level wellbeing : u8)
  (notes : option string) (now : Date) : Checkin :=
  {| c_id := None; c_user := user; mood_rating := mood_rating;
     primary_emotion := primary_emotion; intensity := intensity;
     energy_level := energy_level; stress_level := stress_level;
     wellbeing := wellbeing; notes := notes;
     c_updated_at := now; c_created_at := now |}.

Record PublicCheckin := {
  pc_id : ObjectId;
  pc_user : ObjectId;
  pc_mood_rating : u8;
  pc_primary_emotion : string;
  pc_intensity : u8;
  pc_energy_level : u8;
  pc_stress_level : u8;
  pc_wellbeing : u8;
  pc_notes : option string;
  pc_updated_at : Date;
  pc_created_at : Date
}.

(** [impl From<Checkin> for PublicCheckin] *)
Definition PublicCheckin_from (checkin : Checkin) : Outcome PublicCheckin :=
  i <- unwrap (c_id checkin) ;;
  Ok {| pc_id := i; pc_user := c_user checkin;
        pc_mood_rating := mood_rating checkin;
        pc_primary_emotion := primary_emotion checkin;
        pc_intensity := intensity checkin;
        pc_energy_level := energy_level checkin;
        pc_stress_level := stress_level checkin;
        pc_wellbeing := wellbeing checkin;
        pc_notes := notes checkin;
        pc_updated_at := c_updated_at checkin;
        pc_created_at := c_created_at checkin |}.

End CheckinModel.

(* ------------------------------------------------------------------ *)
(** * The document store and the [ModelExt] operations *)

Module Store.
Import UserModel CheckinModel.

Record Store := {
  users : list User;
  checkins : list Checkin;
  next_oid : ObjectId
}.

(** Modelled from the spec: [ModelExt::find_one] (utils/models.rs is not
    part of the sources): the first match in the store's natural
    (insertion) order, or absence. The only filter used on users is
    [{"email": e}]. *)
Definition find_user_by_email (s : Store) (e : string) : option User :=
  find (fun u => String.eqb (email u) e) (users s).

(** Modelled from the spec: [ModelExt::create] for [User]: assigns a
    fresh identifier and persists; a violation of the unique index on
    [email] is a store error ([Error::Wither]). *)
Definition create_user (s : Store) (u : User) : Outcome User * Store :=
  if existsb (fun v => String.eqb (email v) (email u)) (users s)
  then (Err (Errors.Wither "E11000 duplicate key error"), s)
  else
    let u' := {| id := Some (next_oid s); first_name := first_name u;
                 last_name := last_name u; email := email u;
                 password := password u; updated_at := updated_at u;
                 created_at := created_at u; locked_at := locked_at u |} in
    (Ok u', {| users := users s ++ [u']; checkins := checkins s;
               next_oid := N.succ (next_oid s) |}).

(** Modelled from the spec: [ModelExt::create] for [Checkin]. *)
Definition create_checkin (s : Store) (c : Checkin) : Outcome Checkin * Store :=
  let c' := {| c_id := Some (next_oid s); c_user := c_user c;
               mood_rating := mood_rating c;
               primary_emotion := primary_emotion c;
               intensity := intensity c; energy_level := energy_level c;
               stress_level := stress_level c; wellbeing := wellbeing c;
               notes := notes c; c_updated_at := c_updated_at c;
               c_created_at := c_created_at c |} in
  (Ok c', {| users := users s; checkins := checkins s ++ [c'];
             next_oid := N.succ (next_oid s) |}).

(** Insertion by [created_at] descending (sort [{"created_at": -1}]). *)
Fixpoint insert_desc (c : Checkin) (l : list Checkin) : list Checkin :=
  match l with
  | [] => [c]
  | d :: l' => if (c_created_at d <? c_created_at c)%Z then c :: l
               else d :: insert_desc c l'
  end.

Definition sort_desc (l : list Checkin) : list Checkin :=
  fold_right insert_desc [] l.

(** Modelled from the spec: [ModelExt::find_and_count] on check-ins:
    the page of matches (newest first, after [skip], at most [limit])
    and the total number of matches. *)
Definition find_and_count_checkins (s : Store) (filter : Checkin -> bool)
  (skip limit : N) : Outcome (list Checkin * N) :=
  let matches := List.filter filter (checkins s) in
  Ok (firstn (N.to_nat limit) (skipn (N.to_nat skip) (sort_desc matches)),
      N.of_nat (length matches)).

End Store.

(* ------------------------------------------------------------------ *)
(** * Password hashing (src/models/user.rs) and src/routes/auth.rs *)

Module Auth.
Import UserModel Store.

(** The outcome of awaiting a [task::spawn_blocking] handle: the task
    ran, or the join failed with a [JoinError] (shown as its text). *)
Inductive Dispatch := Joined | JoinFailed (e : string).

(** [bcrypt::DEFAULT_COST] *)
Definition DEFAULT_COST : N := 12.

Section Routes.

(** [bcrypt::hash(password, cost)] with the random salt it draws, and
    [bcrypt::verify(password, hash)]; their errors are [BcryptError]s,
    shown as their text. *)
Variable Salt : Type.
Variable bcrypt_hash : string -> N -> Salt -> sum string string.
Variable bcrypt_verify : string -> string -> sum bool string.
(** The JWT signature function of [Token]. *)
Variable hmac : Token.Algorithm -> string -> Token.Claims -> Z.
(** [SETTINGS.auth.secret] *)
Variable secret : string.

(** [hash_password] (non-test build: [cost = DEFAULT_COST]). *)
Definition hash_password (d : Dispatch) (salt : Salt) (password : string)
  : Outcome string :=
  match d with
  | JoinFailed e => Err (Errors.RunSyncTask e)
  | Joined =>
      match bcrypt_hash password DEFAULT_COST salt with
      | inl h => Ok h
      | inr e => Err (Errors.HashPassword e)
      end
  end.

(** [verify_password] *)
Definition verify_password (d : Dispatch) (password hash : string)
  : Outcome bool :=
  match d with
  | JoinFailed e => Err (Errors.RunSyncTask e)
  | Joined =>
      match bcrypt_verify password hash with
      | inl b => Ok b
      | inr _ => Err (Errors.InvalidPassword "Invalid password")
      end
  end.

(** [User::is_password_match]: [bcrypt::verify] run inline, an error
    read as [false] ([unwrap_or(false)]). *)
Definition is_password_match (self : User) (password : string) : bool :=
  match bcrypt_verify password (UserModel.password self) with
  | inl b => b
  | inr _ => false
  end.

Record SignupRequest := {
  su_email : string;
  su_password : string;
  su_first_name : string;
  su_last_name : string
}.

Record SignupResponseData := {
  sd_user_id : ObjectId;
  sd_email : string;
  sd_first_name : string;
  sd_last_name : string;
  sd_created_at : Date;
  sd_token : Token.Jwt
}.

Record SigninRequest := {
  si_email : string;
  si_password : string
}.

Record SigninResponseData := {
  sid_user_id : ObjectId;
  sid_email : string;
  sid_first_name : string;
  sid_last_name : string;
  sid_token : Token.Jwt
}.

(** The nondeterministic inputs of a request: the join outcome of the
    blocking task, the salt drawn by bcrypt, the reading of [date::now()]
    and the two clock readings of [Claims::new]. *)
Record Env := {
  env_dispatch : Dispatch;
  env_salt : Salt;
  env_now : Date;
  env_now1 : Token.Instant;
  env_now2 : Token.Instant
}.

(** Sequencing of a pure step after a state-changing step. *)
Definition after {A B} (r : Outcome A * Store) (k : A -> Outcome B)
  : Outcome B * Store :=
  (bind (fst r) k, snd r).

(** [signup] (the payload's [validate] is not called). *)
Definition signup (s : Store) (env : Env) (payload : SignupRequest)
  : Outcome SignupResponseData * Store :=
  match find_user_by_email s (su_email payload) with
  | Some _ =>
      (Err (Errors.bad_request_with_message "Email already registered"), s)
  | None =>
      match hash_password (env_dispatch env) (env_salt env)
              (su_password payload) with
      | Err e => (Err e, s)
      | Panic => (Panic, s)
      | Ok password_hash =>
          let user := UserModel.new (su_first_name payload)
                        (su_last_name payload) (su_email payload)
                        password_hash (env_now env) in
          after (create_user s user) (fun user =>
            public_user <- PublicUser_from user ;;
            token <- Token.create hmac user secret (env_now1 env) (env_now2 env) ;;
            Ok {| sd_user_id := pu_id public_user;
                  sd_email := pu_email public_user;
                  sd_first_name := pu_first_name public_user;
                  sd_last_name := pu_last_name public_user;
                  sd_created_at := pu_created_at public_user;
                  sd_token := token |})
      end
  end.

(** [signin]: it does not change the store. *)
Definition signin (s : Store) (env : Env) (payload : SigninRequest)
  : Outcome SigninResponseData :=
  user <- match find_user_by_email s (si_email payload) with
          | Some u => Ok u
          | None => Err (Errors.unauthorized_with_message
                           "Invalid email or password")
          end ;;
  is_valid <- verify_password (env_dispatch env) (si_password payload)
                (password user) ;;
  if negb is_valid
  then Err (Errors.unauthorized_with_message "Invalid email or password")
  else
    token <- Token.create hmac user secret (env_now1 env) (env_now2 env) ;;
    public_user <- PublicUser_from user ;;
    Ok {| sid_user_id := pu_id public_user;
          sid_email := pu_email public_user;
          sid_first_name := pu_first_name public_user;
          sid_last_name := pu_last_name public_user;
          sid_token := token |}.

End Routes.

Arguments Build_Env {Salt}.
Arguments env_dispatch {Salt}.
Arguments env_salt {Salt}.
Arguments env_now {Salt}.
Arguments env_now1 {Salt}.
Arguments env_now2 {Salt}.

End Auth.

(* ------------------------------------------------------------------ *)
(** * src/routes/checkin.rs *)

Module CheckinRoutes.
Import CheckinModel Store.

Record CreateCheckinRequest := {
  r_mood_rating : u8;
  r_primary_emotion : string;
  r_intensity : u8;
  r_energy_level : u8;
  r_stress_level : u8;
  r_wellbeing : u8;
  r_notes : option string
}.

(** [#[validate(range(min = 1, max = 5))]] *)
Definition in_range (v : u8) : bool := (1 <=? v)%N && (v <=? 5)%N.

(** [CreateCheckinRequest::validate]: the names of the fields whose
    range check fails (the [ValidationErrors] map); empty means [Ok]. *)
Definition validate (p : CreateCheckinRequest) : list string :=
  (if in_range (r_mood_rating p) then [] else ["mood_rating"]) ++
  (if in_range (r_intensity p) then [] else ["intensity"]) ++
  (if in_range (r_energy_level p) then [] else ["energy_level"]) ++
  (if in_range (r_stress_level p) then [] else ["stress_level"]) ++
  (if in_range (r_wellbeing p) then [] else ["wellbeing"]).

(** The [{:?}] rendering of [ValidationErrors], reduced to the field
    names it lists. *)
Definition validation_errors_debug (errs : list string) : string :=
  String.concat ", " errs.

(** [create_checkin]: [now] is the reading of [date::now()]. *)
Definition create_checkin (s : Store) (now : Date) (user : Token.TokenUser)
  (payload : CreateCheckinRequest) : Outcome PublicCheckin * Store :=
  match validate payload with
  | _ :: _ =>
      (Err (Errors.bad_request_with_message
              ("Validation error: " ++ validation_errors_debug (validate payload))), s)
  | [] =>
      if negb (contains valid_emotions (r_primary_emotion payload))
      then (Err (Errors.bad_request_with_message "Invalid primary emotion"), s)
      else
        let checkin := CheckinModel.new (Token.tu_id user) (r_mood_rating payload)
                         (r_primary_emotion payload) (r_intensity payload)
                         (r_energy_level payload) (r_stress_level payload)
                         (r_wellbeing payload) (r_notes payload) now in
        Auth.after (Store.create_checkin s checkin) PublicCheckin_from
  end.

Record CheckinQueryParams := {
  month : option N;   (* u32 *)
  year : option Z     (* i32 *)
}.

(** Modelled from the spec: the [Pagination] extractor's result
    (utils/pagination.rs is not part of the sources). *)
Record Pagination := {
  offset : N;
  limit : N
}.

(** [chrono::NaiveDate] *)
Record NaiveDate := { nd_year : Z; nd_month : Z; nd_day : Z }.

(** The years of chrono 0.4's [NaiveDate::MIN] (-262143-01-01) and
    [NaiveDate::MAX] (262142-12-31): [from_ymd_opt] refuses any year
    outside them. *)
Definition MIN_YEAR : Z := -262143.
Definition MAX_YEAR : Z := 262142.

(** [NaiveDate::from_ymd_opt(year, month, 1)] *)
Definition from_ymd_opt (year : Z) (month : Z) (day : Z) : option NaiveDate :=
  if (MIN_YEAR <=? year)%Z && (year <=? MAX_YEAR)%Z
     && (1 <=? month)%Z && (month <=? 12)%Z && (day =? 1)%Z
  then Some {| nd_year := year; nd_month := month; nd_day := day |}
  else None.

(** Days from 1970-01-01 to a proleptic Gregorian date. *)
Definition days_from_civil (d : NaiveDate) : Z :=
  let y := if (nd_month d <=? 2)%Z then (nd_year d - 1)%Z else nd_year d in
  let era := (y / 400)%Z in
  let yoe := (y - era * 400)%Z in
  let mp := ((nd_month d + 9) mod 12)%Z in
  let doy := ((153 * mp + 2) / 5 + nd_day d - 1)%Z in
  let doe := (yoe * 365 + yoe / 4 - yoe / 100 + doy)%Z in
  (era * 146097 + doe - 719468)%Z.

(** [DateTime::from_chrono(d.and_hms_opt(0, 0, 0).unwrap().and_utc())]:
    milliseconds since the epoch. *)
Definition midnight_millis (d : NaiveDate) : Date :=
  (days_from_civil d * 86400000)%Z.

Record ResponsePagination := { rp_count : N; rp_offset : N; rp_limit : N }.

Record ListResponse := {
  lr_body : list PublicCheckin;
  lr_pagination : ResponsePagination
}.

(** [collect::<Vec<PublicCheckin>>()] of [map(Into::into)]. *)
Fixpoint map_public (l : list Checkin) : Outcome (list PublicCheckin) :=
  match l with
  | [] => Ok []
  | c :: l' => p <- PublicCheckin_from c ;; ps <- map_public l' ;; Ok (p :: ps)
  end.

(** [get_user_checkins]: the query [doc!{"user": user.id}], extended with
    the [created_at] window when month and year are both given. *)
Definition get_user_checkins (s : Store) (user : Token.TokenUser)
  (params : CheckinQueryParams) (pagination : Pagination)
  : Outcome ListResponse :=
  query <-
    match month params, year params with
    | Some m, Some y =>
        if (m <? 1)%N || (12 <? m)%N
        then Err (Errors.bad_request_with_message "Month must be between 1 and 12")
        else
          match from_ymd_opt y (Z.of_N m) 1 with
          | None => Err (Errors.bad_request_with_message "Invalid date")
          | Some start_date =>
              let end_month := if (m =? 12)%N then 1%N else (m + 1)%N in
              let end_year := if (m =? 12)%N then (y + 1)%Z else y in
              match from_ymd_opt end_year (Z.of_N end_month) 1 with
              | None => Err (Errors.bad_request_with_message "Invalid date")
              | Some end_date =>
                  let start_datetime := midnight_millis start_date in
                  let end_datetime := midnight_millis end_date in
                  Ok (fun c => (c_user c =? Token.tu_id user)%N
                               && (start_datetime <=? c_created_at c)%Z
                               && (c_created_at c <? end_datetime)%Z)
              end
          end
    | _, _ => Ok (fun c => (c_user c =? Token.tu_id user)%N)
    end ;;
  r <- find_and_count_checkins s query (offset pagination) (limit pagination) ;;
  let '(checkins, count) := r in
  checkins <- map_public checkins ;;
  Ok {| lr_body := checkins;
        lr_pagination := {| rp_count := count; rp_offset := offset pagination;
                            rp_limit := limit pagination |} |}.

End CheckinRoutes.

(* ================================================================== *)
(** * Properties *)

Module TokenProofs.
Import UserModel Token.
Local Open Scope Z_scope.

Lemma timestamp_add_day (t : Instant) :
  timestamp (t + one_day) = timestamp t + 86400.
Proof.
  unfold timestamp, one_day, NANOS.
  rewrite Z.div_add by lia. reflexivity.
Qed.

Lemma timestamp_mono (a b : Instant) : a <= b -> timestamp a <= timestamp b.
Proof. intros H. unfold timestamp, NANOS. apply Z.div_le_mono; lia. Qed.

Lemma timestamp_lower (t : Instant) : 60 * NANOS <= t -> 60 <= timestamp t.
Proof.
  intros H. unfold timestamp.
  apply Z.div_le_lower_bound; unfold NANOS in *; lia.
Qed.

Lemma timestamp_upper (t : Instant) : t < 2 ^ 63 -> timestamp t < 2 ^ 63.
Proof.
  intros H. unfold timestamp, NANOS.
  apply Z.div_lt_upper_bound; lia.
Qed.

Lemma as_usize_small (x : Z) : 0 <= x < 2 ^ 64 -> as_usize x = x.
Proof. intros H. unfold as_usize. apply Z.mod_small. exact H. Qed.

Lemma sub_u64_small (a b : Z) : 0 <= a - b < 2 ^ 64 -> sub_u64 a b = a - b.
Proof. intros H. unfold sub_u64. apply Z.mod_small. exact H. Qed.

(** The example of the counterexample to C1: a fixed key-independent
    signature function suffices, any other one behaves the same. *)
Definition hmac0 : Algorithm -> string -> Claims -> Z := fun _ _ _ => 0.

Definition user0 : User :=
  {| id := Some 1%N; first_name := "A"; last_name := "B";
     email := "a@b.com"; password := "$2b$12$hash"; updated_at := 0;
     created_at := 0; locked_at := None |}.

(** T = 1000 s after the epoch, in nanoseconds. *)
Definition T0 : Instant := 1000 * NANOS.

(** C1 (counterexample): a token issued at instant T still verifies at
    instant T + 86400 s, with the same secret. *)
Lemma C1_token_accepted_at_T_plus_one_day :
  match create hmac0 user0 "secret" T0 T0 with
  | Ok tok => decode hmac0 tok "secret" (T0 + one_day) = inl (jwt_claims tok)
  | _ => False
  end.
Proof. vm_compute. reflexivity. Qed.

(** C1 (amended): a token issued from the clock readings [now1 <= now2]
    (issuance instant T = [now1], at least 60 s after the epoch) has
    [exp = floor(T) + 86400]; verifying it with the same secret at an instant
    [t >= T] succeeds throughout [[T, T + 86400 s)], and more precisely
    succeeds exactly when the whole-second time of [t] is at most
    [exp + 60] (jsonwebtoken's default 60 s leeway); after that it fails
    with [ExpiredSignature]. *)
Theorem C1_token_valid_until_exp_plus_leeway
  (hmac : Algorithm -> string -> Claims -> Z) (secret : string)
  (u : User) (i : ObjectId) (now1 now2 t : Instant)
  (Hid : id u = Some i) (Hlow : 60 * NANOS <= now1) (H12 : now1 <= now2)
  (Ht : now1 <= t) (Hhigh : t < 2 ^ 63) :
  exists tok,
    create hmac u secret now1 now2 = Ok tok /\
    exp (jwt_claims tok) = timestamp now1 + 86400 /\
    (t < now1 + one_day -> decode hmac tok secret t = inl (jwt_claims tok)) /\
    (decode hmac tok secret t = inl (jwt_claims tok) <->
       timestamp t <= exp (jwt_claims tok) + 60) /\
    (exp (jwt_claims tok) + 60 < timestamp t ->
       decode hmac tok secret t = inr ExpiredSignature).
Proof.
  unfold create, Claims_new, TokenUser_from. rewrite Hid. simpl.
  eexists. split; [reflexivity|].
  pose proof (timestamp_lower now1 Hlow) as L1.
  pose proof (timestamp_mono now1 t Ht) as M.
  pose proof (timestamp_upper t Hhigh) as U.
  assert (Hexp : as_usize (timestamp (now1 + one_day)) = timestamp now1 + 86400).
  { rewrite timestamp_add_day. apply as_usize_small. lia. }
  assert (Hsub : sub_u64 (timestamp t) 60 = timestamp t - 60).
  { apply sub_u64_small. lia. }
  unfold decode, jwt_decode, encode, validate. simpl.
  rewrite Z.eqb_refl, Hexp, Hsub. simpl.
  split; [reflexivity|].
  split; [|split].
  - intros Hlt.
    assert (timestamp t <= timestamp now1 + 86400).
    { rewrite <- timestamp_add_day. apply timestamp_mono. lia. }
    destruct (Z.ltb_spec (timestamp now1 + 86400) (timestamp t - 60)); [lia|].
    reflexivity.
  - destruct (Z.ltb_spec (timestamp now1 + 86400) (timestamp t - 60)).
    + split; [discriminate | lia].
    + split; [lia | reflexivity].
  - intros Hgt.
    destruct (Z.ltb_spec (timestamp now1 + 86400) (timestamp t - 60)); [|lia].
    reflexivity.
Qed.

Lemma C1_token_valid_until_exp_plus_leeway_witness :
  exists tok,
    create hmac0 user0 "secret" T0 T0 = Ok tok /\
    exp (jwt_claims tok) = timestamp T0 + 86400 /\
    (T0 < T0 + one_day -> decode hmac0 tok "secret" T0 = inl (jwt_claims tok)) /\
    (decode hmac0 tok "secret" T0 = inl (jwt_claims tok) <->
       timestamp T0 <= exp (jwt_claims tok) + 60) /\
    (exp (jwt_claims tok) + 60 < timestamp T0 ->
       decode hmac0 tok "secret" T0 = inr ExpiredSignature).
Proof.
  apply (C1_token_valid_until_exp_plus_leeway hmac0 "secret" user0 1%N T0 T0 T0);
    unfold T0, NANOS; simpl; (reflexivity || lia).
Defined.

(** C6 (code bug): [Claims::new] reads the clock twice; when the two
    readings (here 0.999999999 s and 1 s after the epoch) fall on both
    sides of a second boundary, [exp = iat + 86399], not [iat + 86400]. *)
Theorem C6_exp_minus_iat_is_86399_across_second_boundary :
  match Claims_new user0 999999999 1000000000 with
  | Ok c => exp c = 86400 /\ iat c = 1 /\ exp c = iat c + 86399 /\
            exp c <> iat c + 86400
  | _ => False
  end.
Proof. vm_compute. repeat split; discriminate. Qed.

End TokenProofs.

Module AuthProofs.
Import UserModel Store Auth.

Lemma find_user_by_email_in (s : Store) (u : User) (e : string) :
  In u (users s) -> email u = e -> exists v, find_user_by_email s e = Some v.
Proof.
  intros Hin Hem. unfold find_user_by_email.
  destruct (find (fun v => String.eqb (email v) e) (users s)) as [v|] eqn:F.
  - exists v. reflexivity.
  - pose proof (find_none _ _ F u Hin) as H. simpl in H.
    rewrite Hem, String.eqb_refl in H. discriminate.
Qed.

Lemma find_user_by_email_none (s : Store) (e : string) :
  (forall v, In v (users s) -> email v <> e) -> find_user_by_email s e = None.
Proof.
  intros H. unfold find_user_by_email.
  destruct (find (fun v => String.eqb (email v) e) (users s)) as [v|] eqn:F;
    [|reflexivity].
  apply find_some in F. destruct F as [Hin Heq].
  apply String.eqb_eq in Heq. exfalso. exact (H v Hin Heq).
Qed.

(** C2 (amended): signing up with an email that an account of the store
    already has fails, whatever the password and names, with
    [Error::BadRequest] "Email already registered" (HTTP 400, code
    40002), and leaves the store unchanged. *)
Theorem C2_signup_existing_email_bad_request
  (Salt : Type) (bcrypt_hash : string -> N -> Salt -> sum string string)
  (hmac : Token.Algorithm -> string -> Token.Claims -> Z) (secret : string)
  (s : Store) (env : Env Salt) (payload : SignupRequest) (u : User)
  (Hin : In u (users s)) (Hem : email u = su_email payload) :
  signup Salt bcrypt_hash hmac secret s env payload =
    (Err (Errors.BadRequest "Email already registered"), s) /\
  Errors.get_codes (Errors.BadRequest "Email already registered") = (400%N, 40002%N).
Proof.
  destruct (find_user_by_email_in s u (su_email payload) Hin Hem) as [v Hv].
  unfold signup. rewrite Hv. split; reflexivity.
Qed.

(** Concrete collaborators for the examples below. *)
Definition hash0 : string -> N -> unit -> sum string string :=
  fun p _ _ => inl ("$2b$12$" ++ p).

Definition verify0 : string -> string -> sum bool string :=
  fun p h => if String.eqb h ("$2b$12$" ++ p) then inl true else inl false.

Definition store0 : Store :=
  {| users := [TokenProofs.user0]; checkins := []; next_oid := 2%N |}.

Definition env0 : Env unit :=
  {| env_dispatch := Joined; env_salt := tt; env_now := 0%Z;
     env_now1 := TokenProofs.T0; env_now2 := TokenProofs.T0 |}.

Definition dup_request : SignupRequest :=
  {| su_email := "a@b.com"; su_password := "other-password";
     su_first_name := "C"; su_last_name := "D" |}.

(** C2 (counterexample): a duplicate sign-up is answered with HTTP 400
    (BadRequest, code 40002), not with a Conflict (HTTP 409) outcome. *)
Lemma C2_duplicate_signup_is_400_not_409 :
  match fst (signup unit hash0 TokenProofs.hmac0 "secret" store0 env0 dup_request) with
  | Err e => Errors.kind e = Errors.KBadRequest /\
             Errors.resp_status (Errors.into_response e) = 400%N /\
             Errors.resp_status (Errors.into_response e) <> 409%N
  | _ => False
  end.
Proof. vm_compute. repeat split; discriminate. Qed.

Lemma C2_signup_existing_email_bad_request_witness :
  signup unit hash0 TokenProofs.hmac0 "secret" store0 env0 dup_request =
    (Err (Errors.BadRequest "Email already registered"), store0) /\
  Errors.get_codes (Errors.BadRequest "Email already registered") = (400%N, 40002%N).
Proof.
  apply (C2_signup_existing_email_bad_request unit hash0 TokenProofs.hmac0
           "secret" store0 env0 dup_request TokenProofs.user0);
    simpl; auto.
Defined.

(** C4: two sign-in runs, one for an email no account has and one for an
    existing account (the one [find_one] returns, with a well-formed
    stored hash) with a wrong password, fail with the same error, hence
    the same response: status 401, code 40004 and the same message. *)
Theorem C4_signin_failures_indistinguishable
  (Salt : Type) (bcrypt_verify : string -> string -> sum bool string)
  (hmac : Token.Algorithm -> string -> Token.Claims -> Z) (secret : string)
  (s1 s2 : Store) (env1 env2 : Env Salt) (req1 req2 : SigninRequest) (u : User)
  (Hunknown : forall v, In v (users s1) -> email v <> si_email req1)
  (Hfound : find_user_by_email s2 (si_email req2) = Some u)
  (Hjoin : env_dispatch env2 = Joined)
  (Hwrong : bcrypt_verify (si_password req2) (password u) = inl false) :
  exists e,
    signin Salt bcrypt_verify hmac secret s1 env1 req1 = Err e /\
    signin Salt bcrypt_verify hmac secret s2 env2 req2 = Err e /\
    Errors.into_response e =
      {| Errors.resp_status := 401%N;
         Errors.resp_body := {| Errors.body_success := false;
                                Errors.body_message := "Wrong authentication credentials";
                                Errors.body_error := "40004" |} |}.
Proof.
  exists (Errors.Authenticate Errors.WrongCredentials).
  split; [|split].
  - unfold signin. rewrite (find_user_by_email_none s1 _ Hunknown). reflexivity.
  - unfold signin. rewrite Hfound. simpl.
    unfold verify_password. rewrite Hjoin, Hwrong. reflexivity.
  - reflexivity.
Qed.

Definition store_empty : Store := {| users := []; checkins := []; next_oid := 1%N |}.

Lemma C4_signin_failures_indistinguishable_witness :
  exists e,
    signin unit verify0 TokenProofs.hmac0 "secret" store_empty env0
      {| si_email := "x@y.com"; si_password := "password1" |} = Err e /\
    signin unit verify0 TokenProofs.hmac0 "secret" store0 env0
      {| si_email := "a@b.com"; si_password := "wrong" |} = Err e /\
    Errors.into_response e =
      {| Errors.resp_status := 401%N;
         Errors.resp_body := {| Errors.body_success := false;
                                Errors.body_message := "Wrong authentication credentials";
                                Errors.body_error := "40004" |} |}.
Proof.
  apply (C4_signin_failures_indistinguishable unit verify0 TokenProofs.hmac0
           "secret" store_empty store0 env0 env0
           {| si_email := "x@y.com"; si_password := "password1" |}
           {| si_email := "a@b.com"; si_password := "wrong" |} TokenProofs.user0).
  - simpl. intros v [].
  - reflexivity.
  - reflexivity.
  - vm_compute. reflexivity.
Defined.

(** C8: [verify_password] returns [Ok(false)] when bcrypt reports a
    mismatch against a well-formed hash, [Error::InvalidPassword]
    (HTTP 401, code 40008) whenever bcrypt rejects the stored hash, and
    [Error::RunSyncTask] (HTTP 500, code 5005) when the blocking task
    cannot be joined; the two errors have different codes. *)
Theorem C8_verify_password_outcomes
  (bcrypt_verify : string -> string -> sum bool string) (p h : string) :
  (bcrypt_verify p h = inl false ->
     verify_password bcrypt_verify Joined p h = Ok false) /\
  (forall be, bcrypt_verify p h = inr be ->
     verify_password bcrypt_verify Joined p h =
       Err (Errors.InvalidPassword "Invalid password")) /\
  (forall je, verify_password bcrypt_verify (JoinFailed je) p h =
                Err (Errors.RunSyncTask je)) /\
  Errors.get_codes (Errors.InvalidPassword "Invalid password") = (401%N, 40008%N) /\
  (forall je, Errors.get_codes (Errors.RunSyncTask je) = (500%N, 5005%N)).
Proof.
  unfold verify_password.
  split; [intros H; rewrite H; reflexivity|].
  split; [intros be H; rewrite H; reflexivity|].
  split; [reflexivity|].
  split; reflexivity.
Qed.

End AuthProofs.

Module CheckinProofs.
Import CheckinModel Store CheckinRoutes.
Local Open Scope N_scope.

Lemma in_range_spec (v : u8) : in_range v = true <-> (1 <= v <= 5)%N.
Proof.
  unfold in_range. rewrite andb_true_iff, N.leb_le, N.leb_le. reflexivity.
Qed.

Lemma contains_spec (l : list string) (x : string) :
  contains l x = true <-> In x l.
Proof.
  unfold contains. rewrite existsb_exists. split.
  - intros [y [Hy Heq]]. apply String.eqb_eq in Heq. subst. exact Hy.
  - intros H. exists x. split; [exact H | apply String.eqb_refl].
Qed.

Lemma validate_nil (p : CreateCheckinRequest) :
  validate p = [] ->
  (1 <= r_mood_rating p <= 5)%N /\ (1 <= r_intensity p <= 5)%N /\
  (1 <= r_energy_level p <= 5)%N /\ (1 <= r_stress_level p <= 5)%N /\
  (1 <= r_wellbeing p <= 5)%N.
Proof.
  unfold validate. intros H.
  destruct (in_range (r_mood_rating p)) eqn:H1; [|discriminate].
  destruct (in_range (r_intensity p)) eqn:H2; [|discriminate].
  destruct (in_range (r_energy_level p)) eqn:H3; [|discriminate].
  destruct (in_range (r_stress_level p)) eqn:H4; [|discriminate].
  destruct (in_range (r_wellbeing p)) eqn:H5; [|discriminate].
  rewrite !in_range_spec in *. tauto.
Qed.

(** C3: a check-in creation request with a rating outside [[1,5]] or a
    primary emotion outside {joy, sadness, anger, fear, disgust,
    surprise} is rejected with [Error::BadRequest] (HTTP 400) and the
    store is left exactly as it was. *)
Theorem C3_create_checkin_rejects_invalid
  (s : Store) (now : Date) (user : Token.TokenUser) (p : CreateCheckinRequest)
  (Hbad : ~ (1 <= r_mood_rating p <= 5)%N \/ ~ (1 <= r_intensity p <= 5)%N \/
          ~ (1 <= r_energy_level p <= 5)%N \/ ~ (1 <= r_stress_level p <= 5)%N \/
          ~ (1 <= r_wellbeing p <= 5)%N \/
          ~ In (r_primary_emotion p) valid_emotions) :
  exists msg,
    create_checkin s now user p = (Err (Errors.BadRequest msg), s) /\
    fst (Errors.get_codes (Errors.BadRequest msg)) = 400%N.
Proof.
  unfold create_checkin.
  destruct (validate p) as [|f fs] eqn:V.
  - destruct (validate_nil p V) as (H1 & H2 & H3 & H4 & H5).
    destruct (contains valid_emotions (r_primary_emotion p)) eqn:C.
    + apply contains_spec in C. exfalso. tauto.
    + eexists. split; reflexivity.
  - eexists. split; reflexivity.
Qed.

Definition tuser0 : Token.TokenUser :=
  {| Token.tu_id := 1%N; Token.tu_first_name := "A";
     Token.tu_last_name := "B"; Token.tu_email := "a@b.com" |}.

Definition mood6 : CreateCheckinRequest :=
  {| r_mood_rating := 6; r_primary_emotion := "joy"; r_intensity := 3;
     r_energy_level := 3; r_stress_level := 3; r_wellbeing := 3;
     r_notes := None |}.

Lemma C3_create_checkin_rejects_invalid_witness :
  exists msg,
    create_checkin AuthProofs.store0 0%Z tuser0 mood6 =
      (Err (Errors.BadRequest msg), AuthProofs.store0) /\
    fst (Errors.get_codes (Errors.BadRequest msg)) = 400%N.
Proof.
  apply (C3_create_checkin_rejects_invalid AuthProofs.store0 0%Z tuser0 mood6).
  left. simpl. lia.
Defined.

(** C7 (counterexample): with month = 13 and no year, the listing is
    served (here an empty page of the empty store), not rejected. *)
Lemma C7_month13_without_year_succeeds :
  get_user_checkins AuthProofs.store_empty tuser0
    {| month := Some 13%N; year := None |} {| offset := 0; limit := 10 |} =
  Ok {| lr_body := [];
        lr_pagination := {| rp_count := 0; rp_offset := 0; rp_limit := 10 |} |}.
Proof. vm_compute. reflexivity. Qed.

(** C7 (amended): a listing with month = 13 and a year is rejected with
    [Error::BadRequest] "Month must be between 1 and 12" (HTTP 400),
    whatever the year; and whenever the month or the year is missing,
    the other one is ignored: the request is handled exactly as one with
    neither month nor year (no window filter, no month or date check). *)
Theorem C7_month13_rejected_only_with_year :
  (forall s user y pag,
     get_user_checkins s user {| month := Some 13%N; year := Some y |} pag =
       Err (Errors.BadRequest "Month must be between 1 and 12")) /\
  (forall s user params pag,
     month params = None \/ year params = None ->
     get_user_checkins s user params pag =
     get_user_checkins s user {| month := None; year := None |} pag).
Proof.
  split; [intros; reflexivity|].
  intros s user [[m|] [y|]] pag H; simpl in H;
    [destruct H; discriminate | reflexivity ..].
Qed.

Lemma C7_month13_rejected_only_with_year_witness :
  get_user_checkins AuthProofs.store_empty tuser0
    {| month := Some 13%N; year := Some 2024%Z |} {| offset := 0; limit := 10 |} =
    Err (Errors.BadRequest "Month must be between 1 and 12") /\
  get_user_checkins AuthProofs.store_empty tuser0
    {| month := None; year := Some 2024%Z |} {| offset := 0; limit := 10 |} =
  get_user_checkins AuthProofs.store_empty tuser0
    {| month := None; year := None |} {| offset := 0; limit := 10 |}.
Proof.
  split.
  - apply (proj1 C7_month13_rejected_only_with_year).
  - apply (proj2 C7_month13_rejected_only_with_year). left. reflexivity.
Defined.

End CheckinProofs.

Module ErrorProofs.
Import Errors.

(** C9 (counterexample): a sign-up with an already registered email and
    a check-in with mood rating 6 are different failures, yet both
    responses carry the same code "40002" (and status 400); only their
    messages tell them apart. *)
Lemma C9_distinct_failures_share_code :
  match fst (Auth.signup unit AuthProofs.hash0 TokenProofs.hmac0 "secret"
               AuthProofs.store0 AuthProofs.env0 AuthProofs.dup_request),
        fst (CheckinRoutes.create_checkin AuthProofs.store0 0%Z
               CheckinProofs.tuser0 CheckinProofs.mood6) with
  | Err e1, Err e2 =>
      body_error (resp_body (into_response e1)) = "40002" /\
      body_error (resp_body (into_response e2)) = "40002" /\
      resp_status (into_response e1) = resp_status (into_response e2) /\
      body_message (resp_body (into_response e1)) <>
        body_message (resp_body (into_response e2))
  | _, _ => False
  end.
Proof. vm_compute. repeat split. discriminate. Qed.

(** C9 (amended): every [Error] is turned into a response whose body has
    [success = false], the error's display text as [message], and as
    [error] the decimal rendering of the code [get_codes] gives it; that
    code is fixed by the error's variant alone (two errors share it
    exactly when they have the same variant), so all failures reported as
    [Error::BadRequest] share "40002" and differ only in the message. *)
Theorem C9_error_response_envelope :
  (forall e,
     body_success (resp_body (into_response e)) = false /\
     body_message (resp_body (into_response e)) = to_string e /\
     body_error (resp_body (into_response e)) = to_string_N (snd (get_codes e))) /\
  (forall e1 e2,
     body_error (resp_body (into_response e1)) =
       body_error (resp_body (into_response e2)) <-> kind e1 = kind e2) /\
  (forall m1 m2,
     body_error (resp_body (into_response (BadRequest m1))) = "40002" /\
     body_error (resp_body (into_response (BadRequest m2))) = "40002" /\
     (body_message (resp_body (into_response (BadRequest m1))) =
        body_message (resp_body (into_response (BadRequest m2))) <-> m1 = m2)).
Proof.
  split; [|split].
  - intros e. unfold into_response.
    destruct (get_codes e) as [st c]. simpl. repeat split.
  - intros e1 e2.
    destruct e1 as [| | | |a1| | | | | |]; try destruct a1;
    destruct e2 as [| | | |a2| | | | | |]; try destruct a2;
    vm_compute; split; intros H; solve [reflexivity | discriminate H].
  - intros m1 m2. split; [reflexivity|]. split; [reflexivity|]. reflexivity.
Qed.

End ErrorProofs.

Module ProjectionProofs.
Import UserModel CheckinModel Token.

(** C10: [PublicUser::from], [TokenUser::from] and [PublicCheckin::from]
    panic exactly on entities whose [id] is [None]; on an entity with an
    assigned [id] they return a value. *)
Theorem C10_projections_panic_iff_no_id :
  (forall u : User, PublicUser_from u = Panic <-> id u = None) /\
  (forall u : User, TokenUser_from u = Panic <-> id u = None) /\
  (forall c : Checkin, PublicCheckin_from c = Panic <-> c_id c = None) /\
  (forall u : User, id u <> None ->
     exists p, PublicUser_from u = Ok p /\ exists t, TokenUser_from u = Ok t) /\
  (forall c : Checkin, c_id c <> None -> exists p, PublicCheckin_from c = Ok p).
Proof.
  unfold PublicUser_from, TokenUser_from, PublicCheckin_from.
  split; [|split; [|split; [|split]]]; intros x;
    [destruct (id x) | destruct (id x) | destruct (c_id x)
    | destruct (id x) | destruct (c_id x)];
    simpl; try (split; intros; congruence); intros H; try congruence.
  - eexists. split; [reflexivity|]. eexists. reflexivity.
  - eexists. reflexivity.
Qed.

End ProjectionProofs.

(* ================================================================== *)
(** * Further properties of the code *)

Module TokenFacts.
Import UserModel Token TokenProofs.
Local Open Scope Z_scope.

(** [token::decode] only returns claims that are the token's own, carry
    an HS256 header, whose signature is the HMAC of the claims under the
    given secret, and whose [exp] is at least the current whole second
    minus the 60 s leeway. *)
Theorem decode_accepts_only_signed_unexpired
  (hmac : Algorithm -> string -> Claims -> Z) (tok : Jwt) (secret : string)
  (t : Instant) (c : Claims)
  (Hlow : 60 * NANOS <= t) (Hhigh : t < 2 ^ 63)
  (H : decode hmac tok secret t = inl c) :
  c = jwt_claims tok /\ jwt_alg tok = HS256 /\
  jwt_sig tok = hmac HS256 secret c /\ timestamp t <= exp c + 60.
Proof.
  pose proof (timestamp_lower t Hlow) as L.
  pose proof (timestamp_upper t Hhigh) as U.
  unfold decode, jwt_decode in H.
  destruct (jwt_alg tok) eqn:A; simpl in H; try discriminate.
  destruct (Z.eqb_spec (jwt_sig tok) (hmac HS256 secret (jwt_claims tok)));
    simpl in H; [|discriminate].
  unfold validate in H. simpl in H.
  rewrite (sub_u64_small (timestamp t) 60) in H by lia.
  destruct (Z.ltb_spec (exp (jwt_claims tok)) (timestamp t - 60));
    simpl in H; [discriminate|].
  injection H as <-. repeat split; auto. lia.
Qed.

Lemma decode_accepts_only_signed_unexpired_witness :
  exists tok,
    create hmac0 user0 "secret" T0 T0 = Ok tok /\
    (jwt_claims tok = jwt_claims tok /\ jwt_alg tok = HS256 /\
     jwt_sig tok = hmac0 HS256 "secret" (jwt_claims tok) /\
     timestamp T0 <= exp (jwt_claims tok) + 60).
Proof.
  eexists. split; [vm_compute; reflexivity|].
  apply (decode_accepts_only_signed_unexpired hmac0 _ "secret" T0);
    [unfold T0, NANOS; lia | unfold T0, NANOS; lia | vm_compute; reflexivity].
Defined.

(** A token made by [token::create] with one secret is rejected with
    [InvalidSignature], at every instant, by [token::decode] with a
    secret whose HMAC of the token's claims differs. *)
Theorem decode_other_secret_rejected
  (hmac : Algorithm -> string -> Claims -> Z) (u : User)
  (s1 s2 : string) (now1 now2 : Instant) (tok : Jwt)
  (Hc : create hmac u s1 now1 now2 = Ok tok)
  (Hdiff : hmac HS256 s1 (jwt_claims tok) <> hmac HS256 s2 (jwt_claims tok))
  (t : Instant) :
  decode hmac tok s2 t = inr InvalidSignature.
Proof.
  unfold create in Hc.
  destruct (Claims_new u now1 now2) as [c| |]; simpl in Hc; try discriminate.
  injection Hc as <-. unfold decode, jwt_decode, encode. simpl.
  destruct (Z.eqb_spec (hmac HS256 s1 c) (hmac HS256 s2 c)); [contradiction|].
  reflexivity.
Qed.

(** A signature function that depends on the key. *)
Definition hmac_len : Algorithm -> string -> Claims -> Z :=
  fun _ s _ => Z.of_nat (String.length s).

Lemma decode_other_secret_rejected_witness :
  exists tok,
    create hmac_len user0 "k1" T0 T0 = Ok tok /\
    decode hmac_len tok "key2" T0 = inr InvalidSignature.
Proof.
  eexists. split; [vm_compute; reflexivity|].
  apply (decode_other_secret_rejected hmac_len user0 "k1" "key2" T0 T0);
    [vm_compute; reflexivity | vm_compute; discriminate].
Defined.

(** For clock readings [0 <= now1 <= now2 < 2^63] ns, the claims of
    [Claims::new] have [exp = floor(now1) + 86400] and
    [iat = floor(now2)]: [exp - iat = 86400 - (floor(now2) - floor(now1))],
    so [exp = iat + 86400] holds exactly when both readings fall in the
    same second. *)
Theorem claims_exp_minus_iat
  (u : User) (i : ObjectId) (now1 now2 : Instant)
  (Hid : id u = Some i) (H0 : 0 <= now1) (H12 : now1 <= now2)
  (Hhigh : now2 < 2 ^ 63) :
  exists c, Claims_new u now1 now2 = Ok c /\
    exp c = timestamp now1 + 86400 /\ iat c = timestamp now2 /\
    exp c - iat c = 86400 - (timestamp now2 - timestamp now1) /\
    (exp c = iat c + 86400 <-> timestamp now1 = timestamp now2).
Proof.
  unfold Claims_new, TokenUser_from. rewrite Hid. cbn [bind unwrap].
  eexists. split; [reflexivity|]. cbn [exp iat].
  pose proof (timestamp_mono now1 now2 H12) as M.
  pose proof (timestamp_upper now2 Hhigh) as U.
  assert (0 <= timestamp now1) by (unfold timestamp, NANOS; apply Z.div_pos; lia).
  rewrite timestamp_add_day.
  rewrite !as_usize_small by lia.
  repeat split; intros; lia.
Qed.

Lemma claims_exp_minus_iat_witness :
  exists c, Claims_new user0 T0 (T0 + 5) = Ok c /\
    exp c = timestamp T0 + 86400 /\ iat c = timestamp (T0 + 5) /\
    exp c - iat c = 86400 - (timestamp (T0 + 5) - timestamp T0) /\
    (exp c = iat c + 86400 <-> timestamp T0 = timestamp (T0 + 5)).
Proof.
  apply (claims_exp_minus_iat user0 1%N T0 (T0 + 5));
    [reflexivity | unfold T0, NANOS; lia | lia | unfold T0, NANOS; lia].
Defined.

End TokenFacts.

Module AuthFacts.
Import UserModel Store Auth AuthProofs.

Lemma existsb_email_false (s : Store) (e : string) :
  find_user_by_email s e = None ->
  existsb (fun v => String.eqb (email v) e) (users s) = false.
Proof.
  unfold find_user_by_email. intros F.
  apply Bool.not_true_iff_false. intros Hex.
  apply existsb_exists in Hex. destruct Hex as [v [Hin Hv]].
  pose proof (find_none _ _ F v Hin) as Hf. simpl in Hf. congruence.
Qed.

Lemma find_app_last (f : User -> bool) (l : list User) (x : User) :
  find f l = None -> f x = true -> find f (l ++ [x]) = Some x.
Proof.
  induction l as [|y l IH]; simpl; intros F Hx.
  - rewrite Hx. reflexivity.
  - destruct (f y); [discriminate|]. apply IH; assumption.
Qed.

(** The account [signup] persists for a request, given the hash and the
    store it is added to. *)
Definition signup_user (s : Store) (payload : SignupRequest) (h : string)
  (now : Date) : User :=
  {| id := Some (next_oid s); first_name := su_first_name payload;
     last_name := su_last_name payload; email := su_email payload;
     password := h; updated_at := now; created_at := now; locked_at := None |}.

Definition store_with_user (s : Store) (u : User) : Store :=
  {| users := users s ++ [u]; checkins := checkins s;
     next_oid := N.succ (next_oid s) |}.

(** The cases of [signup]: failure with the store unchanged, or the
    appended account with a fresh email. *)
Lemma signup_cases
  (Salt : Type) (bcrypt_hash : string -> N -> Salt -> sum string string)
  (hmac : Token.Algorithm -> string -> Token.Claims -> Z) (secret : string)
  (s : Store) (env : Env Salt) (payload : SignupRequest) :
  (exists e, signup Salt bcrypt_hash hmac secret s env payload = (Err e, s)) \/
  (exists d h, signup Salt bcrypt_hash hmac secret s env payload =
       (Ok d, store_with_user s (signup_user s payload h (env_now env))) /\
     (forall v, In v (users s) -> email v <> su_email payload)).
Proof.
  unfold signup.
  destruct (find_user_by_email s (su_email payload)) as [v|] eqn:F.
  { left. eexists. reflexivity. }
  destruct (hash_password Salt bcrypt_hash (env_dispatch env) (env_salt env)
              (su_password payload)) as [h|e|] eqn:HP.
  2: { left. eexists. reflexivity. }
  2: { exfalso. unfold hash_password in HP.
       destruct (env_dispatch env); [|discriminate].
       destruct (bcrypt_hash _ _ _); discriminate. }
  unfold create_user. cbn [email UserModel.new].
  rewrite (existsb_email_false s _ F).
  right. eexists. exists h. split; [reflexivity|].
  intros v Hin Heq. unfold find_user_by_email in F.
  pose proof (find_none _ _ F v Hin) as Hf. simpl in Hf.
  rewrite Heq, String.eqb_refl in Hf. discriminate.
Qed.

(** [signup] never panics: it either fails and leaves the store as it
    was, or succeeds and appends exactly one account, with the request's
    email, the next identifier, and an email no earlier account has. *)
Theorem signup_fails_unchanged_or_appends_one
  (Salt : Type) (bcrypt_hash : string -> N -> Salt -> sum string string)
  (hmac : Token.Algorithm -> string -> Token.Claims -> Z) (secret : string)
  (s : Store) (env : Env Salt) (payload : SignupRequest) :
  (exists e, signup Salt bcrypt_hash hmac secret s env payload = (Err e, s)) \/
  (exists d h, signup Salt bcrypt_hash hmac secret s env payload =
       (Ok d, store_with_user s (signup_user s payload h (env_now env))) /\
     (forall v, In v (users s) -> email v <> su_email payload)).
Proof. exact (signup_cases Salt bcrypt_hash hmac secret s env payload). Qed.

(** [signup] keeps emails unique: if no two accounts of the store share
    an email before, none do after. *)
Theorem signup_keeps_emails_unique
  (Salt : Type) (bcrypt_hash : string -> N -> Salt -> sum string string)
  (hmac : Token.Algorithm -> string -> Token.Claims -> Z) (secret : string)
  (s : Store) (env : Env Salt) (payload : SignupRequest)
  (Huniq : NoDup (map email (users s))) :
  NoDup (map email (users (snd (signup Salt bcrypt_hash hmac secret s env payload)))).
Proof.
  destruct (signup_cases Salt bcrypt_hash hmac secret
              s env payload) as [[e He] | [d [h [Hs Hnew]]]];
    rewrite ?He, ?Hs; simpl; [exact Huniq|].
  rewrite map_app. simpl.
  apply (Permutation_NoDup (Permutation_cons_append _ _)).
  constructor; [|exact Huniq].
  intros Hin. apply in_map_iff in Hin. destruct Hin as [v [Hv Hin]].
  exact (Hnew v Hin Hv).
Qed.

(** A request with an email no account of [store0] has. *)
Definition new_request : SignupRequest :=
  {| su_email := "c@d.com"; su_password := "pw";
     su_first_name := "E"; su_last_name := "F" |}.

Lemma signup_keeps_emails_unique_witness :
  length (users (snd (signup unit hash0 TokenProofs.hmac0 "secret"
                        store0 env0 new_request))) = 2%nat /\
  NoDup (map email (users (snd (signup unit hash0 TokenProofs.hmac0 "secret"
                                  store0 env0 new_request)))).
Proof.
  split; [vm_compute; reflexivity|].
  apply signup_keeps_emails_unique. simpl. constructor; [intros []|constructor].
Defined.

(** A successful [signup]: for a new email, a joined hashing task and a
    bcrypt hash [h], the account [(next id, names, email, h, now, now,
    no lock)] is appended and the response echoes the request, the new
    identifier, the creation time and a token for that account. *)
Theorem signup_success
  (Salt : Type) (bcrypt_hash : string -> N -> Salt -> sum string string)
  (hmac : Token.Algorithm -> string -> Token.Claims -> Z) (secret : string)
  (s : Store) (env : Env Salt) (payload : SignupRequest) (h : string)
  (Hnew : forall v, In v (users s) -> email v <> su_email payload)
  (Hjoin : env_dispatch env = Joined)
  (Hhash : bcrypt_hash (su_password payload) DEFAULT_COST (env_salt env) = inl h) :
  exists tok,
    Token.create hmac (signup_user s payload h (env_now env)) secret
      (env_now1 env) (env_now2 env) = Ok tok /\
    signup Salt bcrypt_hash hmac secret s env payload =
      (Ok {| sd_user_id := next_oid s; sd_email := su_email payload;
             sd_first_name := su_first_name payload;
             sd_last_name := su_last_name payload;
             sd_created_at := env_now env; sd_token := tok |},
       store_with_user s (signup_user s payload h (env_now env))).
Proof.
  pose proof (find_user_by_email_none s _ Hnew) as F.
  eexists. split; [reflexivity|].
  unfold signup. rewrite F. unfold hash_password. rewrite Hjoin, Hhash.
  unfold create_user. cbn [email UserModel.new].
  rewrite (existsb_email_false s _ F). reflexivity.
Qed.

Lemma signup_success_witness :
  exists tok,
    Token.create TokenProofs.hmac0
      (signup_user store_empty dup_request "$2b$12$other-password" 0%Z) "secret"
      TokenProofs.T0 TokenProofs.T0 = Ok tok /\
    signup unit hash0 TokenProofs.hmac0 "secret" store_empty env0 dup_request =
      (Ok {| sd_user_id := next_oid store_empty; sd_email := su_email dup_request;
             sd_first_name := su_first_name dup_request;
             sd_last_name := su_last_name dup_request;
             sd_created_at := 0%Z; sd_token := tok |},
       store_with_user store_empty
         (signup_user store_empty dup_request "$2b$12$other-password" 0%Z)).
Proof.
  apply (signup_success unit hash0 TokenProofs.hmac0 "secret" store_empty env0
           dup_request "$2b$12$other-password").
  - intros v [].
  - reflexivity.
  - reflexivity.
Defined.

(** When the email is new but hashing fails, [signup] returns the hashing
    error and persists nothing: [RunSyncTask] if the blocking task cannot
    be joined, [HashPassword] if bcrypt fails. *)
Theorem signup_hash_failure
  (Salt : Type) (bcrypt_hash : string -> N -> Salt -> sum string string)
  (hmac : Token.Algorithm -> string -> Token.Claims -> Z) (secret : string)
  (s : Store) (env : Env Salt) (payload : SignupRequest)
  (Hnew : forall v, In v (users s) -> email v <> su_email payload) :
  (forall je, env_dispatch env = JoinFailed je ->
     signup Salt bcrypt_hash hmac secret s env payload =
       (Err (Errors.RunSyncTask je), s)) /\
  (forall be, env_dispatch env = Joined ->
     bcrypt_hash (su_password payload) DEFAULT_COST (env_salt env) = inr be ->
     signup Salt bcrypt_hash hmac secret s env payload =
       (Err (Errors.HashPassword be), s)).
Proof.
  pose proof (find_user_by_email_none s _ Hnew) as F.
  unfold signup. rewrite F. unfold hash_password.
  split.
  - intros je Hj. rewrite Hj. reflexivity.
  - intros be Hj Hb. rewrite Hj, Hb. reflexivity.
Qed.

(** A blocking task that cannot be joined, and a bcrypt that fails. *)
Definition env_join_failed : Env unit :=
  {| env_dispatch := JoinFailed "task cancelled"; env_salt := tt; env_now := 0%Z;
     env_now1 := TokenProofs.T0; env_now2 := TokenProofs.T0 |}.

Definition hash_fail : string -> N -> unit -> sum string string :=
  fun _ _ _ => inr "invalid cost".

Lemma signup_hash_failure_witness :
  signup unit hash0 TokenProofs.hmac0 "secret" store_empty env_join_failed
    dup_request = (Err (Errors.RunSyncTask "task cancelled"), store_empty) /\
  signup unit hash_fail TokenProofs.hmac0 "secret" store_empty env0
    dup_request = (Err (Errors.HashPassword "invalid cost"), store_empty).
Proof.
  split.
  - apply (proj1 (signup_hash_failure unit hash0 TokenProofs.hmac0 "secret"
                    store_empty env_join_failed dup_request (fun v H => match H with end))).
    reflexivity.
  - apply (proj2 (signup_hash_failure unit hash_fail TokenProofs.hmac0 "secret"
                    store_empty env0 dup_request (fun v H => match H with end))).
    + reflexivity.
    + reflexivity.
Defined.

(** A successful [signin]: for the account [find_one] returns, with an
    identifier [i], a joined task and bcrypt accepting the password, the
    response carries [i], the account's email and names, and a token
    whose identity snapshot is that account's. *)
Theorem signin_success
  (Salt : Type) (bcrypt_verify : string -> string -> sum bool string)
  (hmac : Token.Algorithm -> string -> Token.Claims -> Z) (secret : string)
  (s : Store) (env : Env Salt) (req : SigninRequest) (u : User) (i : ObjectId)
  (Hfound : find_user_by_email s (si_email req) = Some u)
  (Hid : id u = Some i) (Hjoin : env_dispatch env = Joined)
  (Hok : bcrypt_verify (si_password req) (password u) = inl true) :
  exists tok,
    signin Salt bcrypt_verify hmac secret s env req =
      Ok {| sid_user_id := i; sid_email := email u;
            sid_first_name := first_name u; sid_last_name := last_name u;
            sid_token := tok |} /\
    Token.cl_user (Token.jwt_claims tok) =
      {| Token.tu_id := i; Token.tu_first_name := first_name u;
         Token.tu_last_name := last_name u; Token.tu_email := email u |}.
Proof.
  unfold signin. rewrite Hfound. cbn [bind].
  unfold verify_password. rewrite Hjoin, Hok. cbn [bind negb].
  unfold Token.create, Token.Claims_new, Token.TokenUser_from, PublicUser_from.
  rewrite Hid. cbn [bind unwrap].
  eexists. split; reflexivity.
Qed.

Lemma signin_success_witness :
  exists tok,
    signin unit verify0 TokenProofs.hmac0 "secret" store0 env0
      {| si_email := "a@b.com"; si_password := "hash" |} =
      Ok {| sid_user_id := 1%N; sid_email := email TokenProofs.user0;
            sid_first_name := first_name TokenProofs.user0;
            sid_last_name := last_name TokenProofs.user0;
            sid_token := tok |} /\
    Token.cl_user (Token.jwt_claims tok) =
      {| Token.tu_id := 1%N; Token.tu_first_name := first_name TokenProofs.user0;
         Token.tu_last_name := last_name TokenProofs.user0;
         Token.tu_email := email TokenProofs.user0 |}.
Proof.
  apply (signin_success unit verify0 TokenProofs.hmac0 "secret" store0 env0
           {| si_email := "a@b.com"; si_password := "hash" |} TokenProofs.user0 1%N);
    vm_compute; reflexivity.
Defined.

(** Sign-up then sign-in: if bcrypt's verify accepts every password
    against a hash bcrypt produced for it, then after a successful
    [signup] a [signin] with the same email and password (and a joined
    task) succeeds, for the account just created. *)
Theorem signup_then_signin
  (Salt : Type) (bcrypt_hash : string -> N -> Salt -> sum string string)
  (bcrypt_verify : string -> string -> sum bool string)
  (hmac : Token.Algorithm -> string -> Token.Claims -> Z) (secret : string)
  (Hround : forall p c salt h, bcrypt_hash p c salt = inl h ->
              bcrypt_verify p h = inl true)
  (s s' : Store) (env env' : Env Salt) (payload : SignupRequest)
  (d : SignupResponseData)
  (Hsignup : signup Salt bcrypt_hash hmac secret s env payload = (Ok d, s'))
  (Hjoin : env_dispatch env' = Joined) :
  exists d',
    signin Salt bcrypt_verify hmac secret s' env'
      {| si_email := su_email payload; si_password := su_password payload |} = Ok d' /\
    sid_user_id d' = sd_user_id d /\ sid_email d' = su_email payload.
Proof.
  unfold signup in Hsignup.
  destruct (find_user_by_email s (su_email payload)) as [v|] eqn:F;
    [discriminate|].
  destruct (hash_password Salt bcrypt_hash (env_dispatch env) (env_salt env)
              (su_password payload)) as [h|e|] eqn:HP; try discriminate.
  assert (Hh : bcrypt_hash (su_password payload) DEFAULT_COST (env_salt env) = inl h).
  { unfold hash_password in HP. destruct (env_dispatch env); [|discriminate].
    destruct (bcrypt_hash _ _ _); congruence. }
  unfold create_user in Hsignup. cbn [email UserModel.new] in Hsignup.
  rewrite (existsb_email_false s _ F) in Hsignup.
  cbn in Hsignup. injection Hsignup as <- <-.
  unfold signin. cbn [si_email si_password users].
  unfold find_user_by_email in *. cbn [users].
  rewrite (find_app_last _ _ _ F) by (simpl; apply String.eqb_refl).
  cbn [bind]. unfold verify_password. rewrite Hjoin.
  cbn [password]. rewrite (Hround _ _ _ _ Hh). cbn.
  eexists. repeat split; reflexivity.
Qed.

Lemma hash0_verify0_round_trip :
  forall p c salt h, hash0 p c salt = inl h -> verify0 p h = inl true.
Proof.
  intros p c salt h H. unfold hash0 in H. injection H as <-.
  unfold verify0. rewrite String.eqb_refl. reflexivity.
Qed.

Definition store_after_signup : Store :=
  snd (signup unit hash0 TokenProofs.hmac0 "secret" store_empty env0 dup_request).

Lemma signup_then_signin_witness :
  exists d,
    signup unit hash0 TokenProofs.hmac0 "secret" store_empty env0 dup_request =
      (Ok d, store_after_signup) /\
    exists d',
      signin unit verify0 TokenProofs.hmac0 "secret" store_after_signup env0
        {| si_email := su_email dup_request; si_password := su_password dup_request |}
        = Ok d' /\
      sid_user_id d' = sd_user_id d /\ sid_email d' = su_email dup_request.
Proof.
  eexists. split; [vm_compute; reflexivity|].
  apply (signup_then_signin unit hash0 verify0 TokenProofs.hmac0 "secret"
           hash0_verify0_round_trip store_empty store_after_signup env0 env0
           dup_request); [vm_compute; reflexivity | reflexivity].
Defined.

(** [signin] on an existing account does not report a wrong password
    when the check itself fails: a stored hash bcrypt rejects gives
    [InvalidPassword] (HTTP 401, code 40008) whatever the password, and
    an unjoined task gives [RunSyncTask] (HTTP 500, code 5005). *)
Theorem signin_verify_failures
  (Salt : Type) (bcrypt_verify : string -> string -> sum bool string)
  (hmac : Token.Algorithm -> string -> Token.Claims -> Z) (secret : string)
  (s : Store) (env : Env Salt) (req : SigninRequest) (u : User)
  (Hfound : find_user_by_email s (si_email req) = Some u) :
  (forall be, env_dispatch env = Joined ->
     bcrypt_verify (si_password req) (password u) = inr be ->
     signin Salt bcrypt_verify hmac secret s env req =
       Err (Errors.InvalidPassword "Invalid password")) /\
  (forall je, env_dispatch env = JoinFailed je ->
     signin Salt bcrypt_verify hmac secret s env req = Err (Errors.RunSyncTask je)).
Proof.
  unfold signin. rewrite Hfound. cbn [bind]. unfold verify_password.
  split.
  - intros be Hj Hb. rewrite Hj, Hb. reflexivity.
  - intros je Hj. rewrite Hj. reflexivity.
Qed.

(** A bcrypt verify that rejects every stored hash as malformed. *)
Definition verify_bad : string -> string -> sum bool string :=
  fun _ _ => inr "invalid hash".

Lemma signin_verify_failures_witness :
  (forall be, env_dispatch env0 = Joined ->
     verify_bad "password1" (password TokenProofs.user0) = inr be ->
     signin unit verify_bad TokenProofs.hmac0 "secret" store0 env0
       {| si_email := "a@b.com"; si_password := "password1" |} =
       Err (Errors.InvalidPassword "Invalid password")) /\
  (forall je, env_dispatch env0 = JoinFailed je ->
     signin unit verify_bad TokenProofs.hmac0 "secret" store0 env0
       {| si_email := "a@b.com"; si_password := "password1" |} =
       Err (Errors.RunSyncTask je)).
Proof.
  apply (signin_verify_failures unit verify_bad
           TokenProofs.hmac0 "secret" store0 env0
           {| si_email := "a@b.com"; si_password := "password1" |} TokenProofs.user0).
  vm_compute. reflexivity.
Defined.

(** [User::is_password_match] agrees with a joined [verify_password] on
    matches, but reads a bcrypt error (a malformed stored hash) as a
    plain [false] where [verify_password] reports [InvalidPassword]. *)
Theorem is_password_match_vs_verify_password
  (bcrypt_verify : string -> string -> sum bool string) (u : User) (p : string) :
  (is_password_match bcrypt_verify u p = true <->
     verify_password bcrypt_verify Joined p (password u) = Ok true) /\
  (forall be, bcrypt_verify p (password u) = inr be ->
     is_password_match bcrypt_verify u p = false /\
     verify_password bcrypt_verify Joined p (password u) =
       Err (Errors.InvalidPassword "Invalid password")).
Proof.
  unfold is_password_match, verify_password.
  split.
  - destruct (bcrypt_verify p (password u)) as [b|e]; split; intros H;
      try congruence; try discriminate; injection H as ->; reflexivity.
  - intros be H. rewrite H. split; reflexivity.
Qed.

End AuthFacts.

Module CheckinFacts.
Import CheckinModel Store CheckinRoutes CheckinProofs.
Local Open Scope N_scope.

Lemma in_firstn_in {A} (n : nat) (l : list A) (x : A) :
  In x (firstn n l) -> In x l.
Proof.
  intros H. rewrite <- (firstn_skipn n l). apply in_or_app. left. exact H.
Qed.

Lemma in_skipn_in {A} (n : nat) (l : list A) (x : A) :
  In x (skipn n l) -> In x l.
Proof.
  intros H. rewrite <- (firstn_skipn n l). apply in_or_app. right. exact H.
Qed.

Lemma insert_desc_perm (c : Checkin) (l : list Checkin) :
  Permutation (insert_desc c l) (c :: l).
Proof.
  induction l as [|d l IH]; simpl; [reflexivity|].
  destruct (c_created_at d <? c_created_at c)%Z; [reflexivity|].
  transitivity (d :: c :: l); [constructor; exact IH | apply perm_swap].
Qed.

Lemma sort_desc_perm (l : list Checkin) : Permutation (sort_desc l) l.
Proof.
  induction l as [|c l IH]; simpl; [reflexivity|].
  rewrite insert_desc_perm. constructor. exact IH.
Qed.

(** The page and count of [find_and_count_checkins]: every element of
    the page is a stored check-in the filter accepts, the page has at
    most [limit] elements, and the count is the number of matches. *)
Lemma find_and_count_page (s : Store) (f : Checkin -> bool) (off lim : N) :
  exists page cnt,
    find_and_count_checkins s f off lim = Ok (page, cnt) /\
    (forall c, In c page -> In c (checkins s) /\ f c = true) /\
    (length page <= N.to_nat lim)%nat /\
    cnt = N.of_nat (length (List.filter f (checkins s))).
Proof.
  do 2 eexists. split; [reflexivity|]. split; [|split].
  - intros c H. apply in_firstn_in, in_skipn_in in H.
    apply (Permutation_in _ (sort_desc_perm _)) in H.
    apply filter_In in H. exact H.
  - apply firstn_le_length.
  - reflexivity.
Qed.

Lemma map_public_ok (l : list Checkin) :
  (forall c, In c l -> c_id c <> None) ->
  exists ps, map_public l = Ok ps /\ length ps = length l /\
    forall pc, In pc ps -> exists c, In c l /\
      pc_user pc = c_user c /\ pc_created_at pc = c_created_at c.
Proof.
  induction l as [|c l IH]; intros Hids.
  - exists []. split; [reflexivity|]. split; [reflexivity|]. intros pc [].
  - destruct (c_id c) as [i|] eqn:Hc; [|exfalso; apply (Hids c); [left; reflexivity | exact Hc]].
    destruct IH as [ps [Hps [Hlen Hin]]].
    { intros d Hd. apply Hids. right. exact Hd. }
    simpl. unfold PublicCheckin_from. rewrite Hc. cbn [bind unwrap]. rewrite Hps.
    eexists. split; [reflexivity|]. split; [simpl; rewrite Hlen; reflexivity|].
    intros pc [<-|Hpc].
    + exists c. split; [left; reflexivity|]. split; reflexivity.
    + destruct (Hin pc Hpc) as [d [Hd Hrest]]. exists d. split; [right; exact Hd | exact Hrest].
Qed.

(** A stored check-in list in which every check-in has an identifier
    (as [create] assigns). *)
Definition ids_assigned (s : Store) : Prop :=
  forall c, In c (checkins s) -> c_id c <> None.

(** Listing without a complete month/year filter: when every stored
    check-in has an identifier, [get_user_checkins] succeeds, returns
    only check-ins owned by the caller, at most [limit] of them, counts
    all of the caller's check-ins, and echoes [offset] and [limit]. *)
Theorem list_checkins_own_only
  (s : Store) (user : Token.TokenUser) (params : CheckinQueryParams)
  (pag : Pagination) (Hids : ids_assigned s)
  (Hno : month params = None \/ year params = None) :
  exists r, get_user_checkins s user params pag = Ok r /\
    (forall pc, In pc (lr_body r) -> pc_user pc = Token.tu_id user) /\
    (length (lr_body r) <= N.to_nat (limit pag))%nat /\
    rp_count (lr_pagination r) =
      N.of_nat (length (List.filter (fun c => c_user c =? Token.tu_id user)
                          (checkins s))) /\
    rp_offset (lr_pagination r) = offset pag /\
    rp_limit (lr_pagination r) = limit pag.
Proof.
  assert (Hq : get_user_checkins s user params pag =
               get_user_checkins s user {| month := None; year := None |} pag).
  { unfold get_user_checkins.
    destruct Hno as [H|H]; rewrite H; [reflexivity|].
    destruct (month params); reflexivity. }
  rewrite Hq. clear Hq Hno. unfold get_user_checkins. cbn [month year bind].
  destruct (find_and_count_page s (fun c => c_user c =? Token.tu_id user)
              (offset pag) (limit pag)) as [page [cnt [Hf [Hin [Hlen Hcnt]]]]].
  rewrite Hf. cbn [bind].
  destruct (map_public_ok page) as [ps [Hps [Hpl Hpin]]].
  { intros c Hc. apply Hids. apply (Hin c Hc). }
  rewrite Hps. cbn [bind].
  eexists. split; [reflexivity|]. cbn [lr_body lr_pagination rp_count rp_offset rp_limit].
  split; [|split; [|split; [exact Hcnt | split; reflexivity]]].
  - intros pc Hpc. destruct (Hpin pc Hpc) as [c [Hc [-> _]]].
    destruct (Hin c Hc) as [_ Hu]. apply N.eqb_eq. exact Hu.
  - rewrite Hpl. exact Hlen.
Qed.

Definition checkin0 : Checkin :=
  {| c_id := Some 7; c_user := 1; mood_rating := 3; primary_emotion := "joy";
     intensity := 3; energy_level := 3; stress_level := 3; wellbeing := 3;
     notes := None; c_updated_at := 0%Z; c_created_at := 0%Z |}.

Definition store_c : Store :=
  {| users := []; checkins := [checkin0]; next_oid := 8 |}.

Lemma list_checkins_own_only_witness :
  exists r, get_user_checkins store_c tuser0 {| month := Some 13; year := None |}
              {| offset := 0; limit := 10 |} = Ok r /\
    (forall pc, In pc (lr_body r) -> pc_user pc = Token.tu_id tuser0) /\
    (length (lr_body r) <= N.to_nat 10)%nat /\
    rp_count (lr_pagination r) =
      N.of_nat (length (List.filter (fun c => c_user c =? Token.tu_id tuser0)
                          (checkins store_c))) /\
    rp_offset (lr_pagination r) = 0 /\ rp_limit (lr_pagination r) = 10.
Proof.
  apply (list_checkins_own_only store_c tuser0 {| month := Some 13; year := None |}
           {| offset := 0; limit := 10 |}).
  - intros c [<-|[]]. discriminate.
  - right. reflexivity.
Defined.

Lemma from_ymd_opt_some (y mo : Z) :
  (MIN_YEAR <= y <= MAX_YEAR)%Z -> (1 <= mo <= 12)%Z ->
  from_ymd_opt y mo 1 = Some {| nd_year := y; nd_month := mo; nd_day := 1 |}.
Proof.
  intros Hy Hm. unfold from_ymd_opt.
  destruct (Z.leb_spec MIN_YEAR y); [|lia].
  destruct (Z.leb_spec y MAX_YEAR); [|lia].
  destruct (Z.leb_spec 1 mo); [|lia].
  destruct (Z.leb_spec mo 12); [|lia].
  reflexivity.
Qed.

(** The first day of the month after month [m] of year [y]. *)
Definition next_month_start (y : Z) (m : N) : NaiveDate :=
  {| nd_year := if m =? 12 then (y + 1)%Z else y;
     nd_month := Z.of_N (if m =? 12 then 1 else m + 1);
     nd_day := 1 |}.

(** Listing with month [m] in [1..12] and a year [y] whose month and
    next month chrono can represent: when every stored check-in has an
    identifier, [get_user_checkins] succeeds and returns only the
    caller's check-ins created from midnight UTC of the first of [m]/[y]
    (inclusive) to midnight UTC of the first of the next month
    (exclusive). *)
Theorem list_checkins_month_window
  (s : Store) (user : Token.TokenUser) (m : N) (y : Z) (pag : Pagination)
  (Hids : ids_assigned s) (Hm : 1 <= m <= 12)
  (Hy : (MIN_YEAR <= y <= MAX_YEAR)%Z) (Hdec : m = 12 -> (y < MAX_YEAR)%Z) :
  exists r,
    get_user_checkins s user {| month := Some m; year := Some y |} pag = Ok r /\
    forall pc, In pc (lr_body r) ->
      pc_user pc = Token.tu_id user /\
      (midnight_millis {| nd_year := y; nd_month := Z.of_N m; nd_day := 1 |}
         <= pc_created_at pc)%Z /\
      (pc_created_at pc < midnight_millis (next_month_start y m))%Z.
Proof.
  unfold get_user_checkins. cbn [month year].
  assert (Hb : ((m <? 1) || (12 <? m))%N = false).
  { destruct (N.ltb_spec m 1); [lia|]. destruct (N.ltb_spec 12 m); [lia|]. reflexivity. }
  rewrite Hb.
  rewrite (from_ymd_opt_some y (Z.of_N m)) by lia.
  unfold next_month_start.
  destruct (N.eqb_spec m 12) as [E|E].
  - rewrite (from_ymd_opt_some (y + 1) (Z.of_N 1)) by (specialize (Hdec E); lia).
    cbn [bind].
    match goal with
    | |- context [find_and_count_checkins s ?f ?o ?l] =>
        destruct (find_and_count_page s f o l) as [page [cnt [Hf [Hin _]]]]
    end.
    rewrite Hf. cbn [bind].
    destruct (map_public_ok page) as [ps [Hps [_ Hpin]]].
    { intros c Hc. apply Hids. apply (Hin c Hc). }
    rewrite Hps. cbn [bind]. eexists. split; [reflexivity|]. cbn [lr_body].
    intros pc Hpc. destruct (Hpin pc Hpc) as [c [Hc [-> ->]]].
    destruct (Hin c Hc) as [_ Hfc].
    apply andb_true_iff in Hfc. destruct Hfc as [Hfc Hlt].
    apply andb_true_iff in Hfc. destruct Hfc as [Hu Hle].
    apply N.eqb_eq in Hu. apply Z.leb_le in Hle. apply Z.ltb_lt in Hlt.
    split; [exact Hu | split; assumption].
  - rewrite (from_ymd_opt_some y (Z.of_N (m + 1))) by lia.
    cbn [bind].
    match goal with
    | |- context [find_and_count_checkins s ?f ?o ?l] =>
        destruct (find_and_count_page s f o l) as [page [cnt [Hf [Hin _]]]]
    end.
    rewrite Hf. cbn [bind].
    destruct (map_public_ok page) as [ps [Hps [_ Hpin]]].
    { intros c Hc. apply Hids. apply (Hin c Hc). }
    rewrite Hps. cbn [bind]. eexists. split; [reflexivity|]. cbn [lr_body].
    intros pc Hpc. destruct (Hpin pc Hpc) as [c [Hc [-> ->]]].
    destruct (Hin c Hc) as [_ Hfc].
    apply andb_true_iff in Hfc. destruct Hfc as [Hfc Hlt].
    apply andb_true_iff in Hfc. destruct Hfc as [Hu Hle].
    apply N.eqb_eq in Hu. apply Z.leb_le in Hle. apply Z.ltb_lt in Hlt.
    split; [exact Hu | split; assumption].
Qed.

Lemma list_checkins_month_window_witness :
  exists r,
    get_user_checkins store_c tuser0 {| month := Some 1; year := Some 1970%Z |}
      {| offset := 0; limit := 10 |} = Ok r /\
    forall pc, In pc (lr_body r) ->
      pc_user pc = Token.tu_id tuser0 /\
      (midnight_millis {| nd_year := 1970; nd_month := Z.of_N 1; nd_day := 1 |}
         <= pc_created_at pc)%Z /\
      (pc_created_at pc < midnight_millis (next_month_start 1970 1))%Z.
Proof.
  apply (list_checkins_month_window store_c tuser0 1 1970%Z).
  - intros c [<-|[]]. discriminate.
  - lia.
  - unfold MIN_YEAR, MAX_YEAR. lia.
  - intros H. discriminate.
Defined.

(** A month outside [1..12] given together with a year is rejected with
    [BadRequest] "Month must be between 1 and 12", whatever the year. *)
Theorem list_checkins_bad_month
  (s : Store) (user : Token.TokenUser) (m : N) (y : Z) (pag : Pagination)
  (Hm : m = 0 \/ 12 < m) :
  get_user_checkins s user {| month := Some m; year := Some y |} pag =
    Err (Errors.BadRequest "Month must be between 1 and 12").
Proof.
  unfold get_user_checkins. cbn [month year].
  assert (Hb : ((m <? 1) || (12 <? m))%N = true).
  { destruct Hm as [->|H]; [reflexivity|].
    apply orb_true_iff. right. apply N.ltb_lt. exact H. }
  rewrite Hb. reflexivity.
Qed.

Lemma list_checkins_bad_month_witness :
  get_user_checkins store_c tuser0 {| month := Some 0; year := Some 2025%Z |}
    {| offset := 0; limit := 10 |} =
    Err (Errors.BadRequest "Month must be between 1 and 12").
Proof. apply list_checkins_bad_month. left. reflexivity. Defined.

(** A valid month with a year chrono cannot represent, or December of
    chrono's last year (whose next month is out of range), is rejected
    with [BadRequest] "Invalid date". *)
Theorem list_checkins_invalid_date
  (s : Store) (user : Token.TokenUser) (m : N) (y : Z) (pag : Pagination)
  (Hm : 1 <= m <= 12)
  (Hy : (y < MIN_YEAR)%Z \/ (MAX_YEAR < y)%Z \/ (m = 12 /\ y = MAX_YEAR)) :
  get_user_checkins s user {| month := Some m; year := Some y |} pag =
    Err (Errors.BadRequest "Invalid date").
Proof.
  unfold get_user_checkins. cbn [month year].
  assert (Hb : ((m <? 1) || (12 <? m))%N = false).
  { destruct (N.ltb_spec m 1); [lia|]. destruct (N.ltb_spec 12 m); [lia|]. reflexivity. }
  rewrite Hb.
  destruct Hy as [Hy|[Hy|[-> ->]]].
  - unfold from_ymd_opt.
    destruct (Z.leb_spec MIN_YEAR y); [lia|]. reflexivity.
  - unfold from_ymd_opt.
    destruct (Z.leb_spec MIN_YEAR y); simpl;
      [destruct (Z.leb_spec y MAX_YEAR); [lia|]|]; reflexivity.
  - vm_compute. reflexivity.
Qed.

Lemma list_checkins_invalid_date_witness :
  get_user_checkins store_c tuser0 {| month := Some 12; year := Some MAX_YEAR |}
    {| offset := 0; limit := 10 |} = Err (Errors.BadRequest "Invalid date").
Proof.
  apply list_checkins_invalid_date; [lia|]. right. right. split; reflexivity.
Defined.

(** The check-in [create_checkin] persists for a request. *)
Definition checkin_stored (s : Store) (user : Token.TokenUser)
  (p : CreateCheckinRequest) (now : Date) : Checkin :=
  {| c_id := Some (next_oid s); c_user := Token.tu_id user;
     mood_rating := r_mood_rating p; primary_emotion := r_primary_emotion p;
     intensity := r_intensity p; energy_level := r_energy_level p;
     stress_level := r_stress_level p; wellbeing := r_wellbeing p;
     notes := r_notes p; c_updated_at := now; c_created_at := now |}.

Definition store_with_checkin (s : Store) (c : Checkin) : Store :=
  {| users := users s; checkins := checkins s ++ [c];
     next_oid := N.succ (next_oid s) |}.

(** The cases of [create_checkin]: failure with the store unchanged, or
    the appended check-in and its public form. *)
Lemma create_checkin_cases
  (s : Store) (now : Date) (user : Token.TokenUser) (p : CreateCheckinRequest) :
  (exists e, create_checkin s now user p = (Err e, s)) \/
  (exists pc, create_checkin s now user p =
     (Ok pc, store_with_checkin s (checkin_stored s user p now)) /\
     PublicCheckin_from (checkin_stored s user p now) = Ok pc /\
     pc_id pc = next_oid s /\ pc_user pc = Token.tu_id user).
Proof.
  unfold create_checkin.
  destruct (validate p) as [|f fs]; [|left; eexists; reflexivity].
  destruct (contains valid_emotions (r_primary_emotion p)); simpl;
    [|left; eexists; reflexivity].
  right. eexists. split; [reflexivity|]. split; [reflexivity|].
  split; reflexivity.
Qed.

(** [create_checkin] never panics: it either fails and leaves the store
    as it was, or appends exactly one check-in, owned by the caller, with
    the next identifier and the request's ratings, emotion and notes, and
    returns the public form [PublicCheckin::from] of that check-in. *)
Theorem create_checkin_fails_unchanged_or_appends_one
  (s : Store) (now : Date) (user : Token.TokenUser) (p : CreateCheckinRequest) :
  (exists e, create_checkin s now user p = (Err e, s)) \/
  (exists pc, create_checkin s now user p =
     (Ok pc, store_with_checkin s (checkin_stored s user p now)) /\
     PublicCheckin_from (checkin_stored s user p now) = Ok pc /\
     pc_id pc = next_oid s /\ pc_user pc = Token.tu_id user).
Proof. exact (create_checkin_cases s now user p). Qed.

(** A check-in request with all five ratings in [1..5] and a listed
    emotion is created: the response is the public form of the stored
    check-in (next identifier, the caller as owner, the request's fields,
    both timestamps [now]). *)
Theorem create_checkin_success
  (s : Store) (now : Date) (user : Token.TokenUser) (p : CreateCheckinRequest)
  (H1 : 1 <= r_mood_rating p <= 5) (H2 : 1 <= r_intensity p <= 5)
  (H3 : 1 <= r_energy_level p <= 5) (H4 : 1 <= r_stress_level p <= 5)
  (H5 : 1 <= r_wellbeing p <= 5)
  (He : In (r_primary_emotion p) valid_emotions) :
  create_checkin s now user p =
    (Ok {| pc_id := next_oid s; pc_user := Token.tu_id user;
           pc_mood_rating := r_mood_rating p;
           pc_primary_emotion := r_primary_emotion p;
           pc_intensity := r_intensity p; pc_energy_level := r_energy_level p;
           pc_stress_level := r_stress_level p; pc_wellbeing := r_wellbeing p;
           pc_notes := r_notes p; pc_updated_at := now; pc_created_at := now |},
     store_with_checkin s (checkin_stored s user p now)).
Proof.
  unfold create_checkin.
  assert (V : validate p = []).
  { unfold validate.
    rewrite (proj2 (in_range_spec _) H1), (proj2 (in_range_spec _) H2),
            (proj2 (in_range_spec _) H3), (proj2 (in_range_spec _) H4),
            (proj2 (in_range_spec _) H5).
    reflexivity. }
  rewrite V. rewrite (proj2 (contains_spec _ _) He). reflexivity.
Qed.

Lemma create_checkin_success_witness :
  create_checkin store_c 5%Z tuser0
    {| r_mood_rating := 4; r_primary_emotion := "fear"; r_intensity := 1;
       r_energy_level := 5; r_stress_level := 2; r_wellbeing := 3;
       r_notes := Some "ok" |} =
    (Ok {| pc_id := 8; pc_user := 1; pc_mood_rating := 4;
           pc_primary_emotion := "fear"; pc_intensity := 1; pc_energy_level := 5;
           pc_stress_level := 2; pc_wellbeing := 3; pc_notes := Some "ok";
           pc_updated_at := 5%Z; pc_created_at := 5%Z |},
     store_with_checkin store_c
       (checkin_stored store_c tuser0
          {| r_mood_rating := 4; r_primary_emotion := "fear"; r_intensity := 1;
             r_energy_level := 5; r_stress_level := 2; r_wellbeing := 3;
             r_notes := Some "ok" |} 5%Z)).
Proof.
  apply create_checkin_success; simpl; try lia.
  right; right; right; left. reflexivity.
Defined.

(** [create_checkin] keeps the store invariant that every stored
    check-in has an identifier, which [get_user_checkins] needs to
    convert its page without panicking. *)
Theorem create_checkin_keeps_ids_assigned
  (s : Store) (now : Date) (user : Token.TokenUser) (p : CreateCheckinRequest)
  (Hids : ids_assigned s) :
  ids_assigned (snd (create_checkin s now user p)).
Proof.
  destruct (create_checkin_cases s now user p)
    as [[e He] | [pc [Hc _]]]; rewrite ?He, ?Hc; simpl; [exact Hids|].
  intros c Hin. apply in_app_or in Hin. destruct Hin as [Hin|[<-|[]]].
  - exact (Hids c Hin).
  - discriminate.
Qed.

Lemma create_checkin_keeps_ids_assigned_witness :
  length (checkins (snd (create_checkin store_c 5%Z tuser0
    {| r_mood_rating := 4; r_primary_emotion := "fear"; r_intensity := 1;
       r_energy_level := 5; r_stress_level := 2; r_wellbeing := 3;
       r_notes := None |}))) = 2%nat /\
  ids_assigned (snd (create_checkin store_c 5%Z tuser0
    {| r_mood_rating := 4; r_primary_emotion := "fear"; r_intensity := 1;
       r_energy_level := 5; r_stress_level := 2; r_wellbeing := 3;
       r_notes := None |})).
Proof.
  split; [vm_compute; reflexivity|].
  apply create_checkin_keeps_ids_assigned. intros c [<-|[]]. discriminate.
Defined.

End CheckinFacts.

Module ErrorFacts.
Import Errors.
Local Open Scope N_scope.

(** [Error::unauthorized_with_message] drops its message: whatever the
    message passed, the response is the same 401 with code 40004 and the
    text "Wrong authentication credentials". *)
Theorem unauthorized_with_message_ignores_message (m1 m2 : string) :
  into_response (unauthorized_with_message m1) =
    into_response (unauthorized_with_message m2) /\
  into_response (unauthorized_with_message m1) =
    {| resp_status := 401;
       resp_body := {| body_success := false;
                       body_message := "Wrong authentication credentials";
                       body_error := "40004" |} |}.
Proof. split; reflexivity. Qed.

(** The HTTP status of an error is 500 exactly for the codes 5001-5006
    and for 40007 ([Error::TokenCreation]); every other error has a 4xx
    status. *)
Theorem status_500_codes (e : Error) :
  (fst (get_codes e) = 500 <->
     (5001 <= snd (get_codes e) <= 5006 \/ snd (get_codes e) = 40007)) /\
  (fst (get_codes e) <> 500 -> 400 <= fst (get_codes e) < 500).
Proof.
  destruct e as [| | | |a| | | | | |]; try destruct a;
    unfold get_codes, BAD_REQUEST, UNAUTHORIZED, NOT_FOUND, LOCKED,
      INTERNAL_SERVER_ERROR; cbn [fst snd];
    (split; [split; intros; lia | intros; lia]).
Qed.

End ErrorFacts.
